(** * datashader.cre_cache: precise cache keys for compiled functions

    A shallow embedding of [datashader/cre_cache.py].  The module derives
    a cache key for a Python function from its bytecode and from the
    globals its code object names, hashes it with SHA-256, and registers
    the resulting locator in front of numba's default cache locators.

    Layout of the development:
    - [Sha256]: [hashlib.sha256(b).hexdigest()], written out over 32-bit
      words held in [Z];
    - [Py]: the Python values the locator inspects, each with the object
      it is, the exceptions by what [except Exception] catches, and the
      insertion ordered [dict] the locator builds;
    - [CreCache]: [_PreciseCacheLocator], [PreciseCacheImpl];
    - [Pickle]: a reference serializer after CPython's pickler, used to
      run the model;
    - [Props], [Examples]: the vocabulary of the statements, and
      functions to run the locator on;
    - the properties of the locator. *)

From Stdlib Require Import ZArith List String Ascii Lia Bool.
From Stdlib.Strings Require Import Byte.
From stdpp Require Import base option gmap strings list fin_maps.

Open Scope Z_scope.

Definition bytes := list byte.

Definition byte_to_Z (b : byte) : Z := Z.of_N (Byte.to_N b).

Definition byte_of_Z (z : Z) : byte :=
  match Byte.of_N (Z.to_N (z mod 256)) with
  | Some b => b
  | None => x00
  end.

(** ** SHA-256 and its hexadecimal rendering

    [hashlib] is CPython's; the function is written out after FIPS 180-4
    and compared with known digests further down. *)

Module Sha256.

Definition mask32 : Z := 0xffffffff.

(** Addition of 32-bit words wraps around. *)
Definition add32 (x y : Z) : Z := Z.land (x + y) mask32.

Definition rotr (n x : Z) : Z :=
  Z.lor (Z.shiftr x n) (Z.land (Z.shiftl x (32 - n)) mask32).

Definition not32 (x : Z) : Z := Z.lxor x mask32.

Definition Ch (x y z : Z) : Z := Z.lxor (Z.land x y) (Z.land (not32 x) z).
Definition Maj (x y z : Z) : Z :=
  Z.lxor (Z.lxor (Z.land x y) (Z.land x z)) (Z.land y z).
Definition Sigma0 (x : Z) : Z :=
  Z.lxor (Z.lxor (rotr 2 x) (rotr 13 x)) (rotr 22 x).
Definition Sigma1 (x : Z) : Z :=
  Z.lxor (Z.lxor (rotr 6 x) (rotr 11 x)) (rotr 25 x).
Definition sigma0 (x : Z) : Z :=
  Z.lxor (Z.lxor (rotr 7 x) (rotr 18 x)) (Z.shiftr x 3).
Definition sigma1 (x : Z) : Z :=
  Z.lxor (Z.lxor (rotr 17 x) (rotr 19 x)) (Z.shiftr x 10).

(** The eight working words. *)
Record state := State {
  wa : Z; wb : Z; wc : Z; wd : Z; we : Z; wf : Z; wg : Z; wh : Z
}.

(** The constants of the standard are fractional parts of roots of the
    first primes, on 32 bits. *)
Definition is_prime (p : Z) : bool :=
  forallb (fun d => negb (p mod d =? 0))
          (map Z.of_nat (List.seq 2 (Z.to_nat p - 2))).

Definition primes : list Z :=
  filter is_prime (map Z.of_nat (List.seq 2 310)).

(** Integer cube root, one bit at a time from the top. *)
Fixpoint cube_root_bits (bits : nat) (n r : Z) : Z :=
  match bits with
  | O => r
  | S bits' =>
      let r' := r + 2 ^ Z.of_nat bits' in
      cube_root_bits bits' n (if r' ^ 3 <=? n then r' else r)
  end.

Definition frac_cube_root (p : Z) : Z :=
  Z.land (cube_root_bits 40 (p * 2 ^ 96) 0) mask32.

Definition frac_square_root (p : Z) : Z :=
  Z.land (Z.sqrt (p * 2 ^ 64)) mask32.

(** Round constants: cube roots of the first 64 primes. *)
Definition K : list Z := Eval vm_compute in map frac_cube_root primes.

(** Initial hash value: square roots of the first 8 primes. *)
Definition H0 : state :=
  Eval vm_compute in
    match map frac_square_root primes with
    | a :: b :: c :: d :: e :: f :: g :: h :: _ => State a b c d e f g h
    | _ => State 0 0 0 0 0 0 0 0
    end.

(** Padding: a 1 bit, zeros up to 56 mod 64, the bit length on 64 bits. *)
Definition be_bytes (n : nat) (x : Z) : bytes :=
  map (fun i => byte_of_Z (Z.shiftr x (8 * Z.of_nat i))) (rev (seq 0 n)).

Definition pad (msg : bytes) : bytes :=
  let len := Z.of_nat (length msg) in
  let zeros := Z.to_nat ((55 - len) mod 64) in
  msg ++ [x80] ++ repeat x00 zeros ++ be_bytes 8 (8 * len).

Definition be_word (bs : bytes) : Z :=
  fold_left (fun acc b => Z.lor (Z.shiftl acc 8) (byte_to_Z b)) bs 0.

(** Split a byte string into groups of [n] bytes; [fuel] bounds the
    number of groups. *)
Fixpoint chunks (fuel n : nat) (bs : bytes) : list bytes :=
  match fuel with
  | O => []
  | S fuel' =>
      match bs with
      | [] => []
      | _ => firstn n bs :: chunks fuel' n (skipn n bs)
      end
  end.

Definition block_words (block : bytes) : list Z :=
  map be_word (chunks 16 4 block).

(** Message schedule: extend the 16 block words to 64. *)
Fixpoint schedule (n : nat) (w : list Z) : list Z :=
  match n with
  | O => w
  | S n' =>
      let t := length w in
      let at_ (k : nat) := nth (t - k) w 0 in
      let next :=
        add32 (add32 (sigma1 (at_ 2%nat)) (at_ 7%nat))
              (add32 (sigma0 (at_ 15%nat)) (at_ 16%nat)) in
      schedule n' (w ++ [next])
  end.

Definition round (s : state) (kw : Z * Z) : state :=
  let '(k, w) := kw in
  let t1 := add32 (add32 (add32 (wh s) (Sigma1 (we s)))
                         (add32 (Ch (we s) (wf s) (wg s)) k)) w in
  let t2 := add32 (Sigma0 (wa s)) (Maj (wa s) (wb s) (wc s)) in
  State (add32 t1 t2) (wa s) (wb s) (wc s)
        (add32 (wd s) t1) (we s) (wf s) (wg s).

Definition compress (h : state) (block : bytes) : state :=
  let w := schedule 48 (block_words block) in
  let s := fold_left round (combine K w) h in
  State (add32 (wa h) (wa s)) (add32 (wb h) (wb s))
        (add32 (wc h) (wc s)) (add32 (wd h) (wd s))
        (add32 (we h) (we s)) (add32 (wf h) (wf s))
        (add32 (wg h) (wg s)) (add32 (wh h) (wh s)).

Definition sha256 (msg : bytes) : state :=
  let padded := pad msg in
  fold_left compress (chunks (length padded) 64 padded) H0.

Definition state_words (s : state) : list Z :=
  [wa s; wb s; wc s; wd s; we s; wf s; wg s; wh s].

(** [digest()]: the 32 bytes of the final state. *)
Definition digest (msg : bytes) : bytes :=
  flat_map (be_bytes 4) (state_words (sha256 msg)).

(** Lowercase hexadecimal digits. *)
Definition hexdigit (n : Z) : ascii :=
  if n <? 10 then ascii_of_N (Z.to_N (48 + n))
  else ascii_of_N (Z.to_N (87 + n)).

Definition hex_byte (b : byte) : list ascii :=
  let z := byte_to_Z b in
  [hexdigit (Z.shiftr z 4); hexdigit (Z.land z 15)].

(** [hashlib.sha256(msg).hexdigest()] *)
Definition hexdigest (msg : bytes) : string :=
  string_of_list_ascii (flat_map hex_byte (digest msg)).

#[global] Arguments hexdigest : simpl never.

End Sha256.

(** ** Python values *)

Module Py.

(** Entries of [co_consts]. *)
Inductive constant :=
| KNone
| KInt (n : Z)
| KStr (s : string)
| KBytes (b : bytes).

(** [id(obj)]: which object a value is.  Two values with equal contents
    are one object or two, and the pickler tells the difference.
    - [Interned s]: the interned [str] with contents [s]; the names of
      [co_names] are interned;
    - [ClassOf m q]: the class object [q] of module [m];
    - [Given a]: an object that exists when the locator is built;
    - [Created n]: the [n]-th object the locator allocates. *)
Inductive oid :=
| Interned (s : string)
| ClassOf (module qualname : string)
| Given (addr : positive)
| Created (n : nat).

#[global] Instance oid_eq_dec : EqDecision oid.
Proof. solve_decision. Defined.

(** A code object: the attributes the locator can see.  [co_code] is the
    contents of the attribute and [co_code_id] the [bytes] object that
    reading the attribute returns. *)
Record code := Code {
  co_code : bytes;
  co_code_id : oid;
  co_names : list string;
  co_consts : list constant
}.

(** What [_Intrinsic._defn] and [Dispatcher.py_func] hold: a callable,
    which carries a code object when it is a Python function and none
    otherwise ([functools.partial], a builtin, an instance with
    [__call__]). *)
Record callable := Callable { code_of : option code }.

(** Exceptions, by what [except Exception] catches: [AttributeError]
    and every other subclass of [Exception]; and the rest of
    [BaseException] ([KeyboardInterrupt], [SystemExit], ...). *)
Inductive exn :=
| AttributeError (attr : string)
| Exception (cls : string)
| BaseException (cls : string).

Definition isinstance_Exception (e : exn) : bool :=
  match e with
  | BaseException _ => false
  | _ => true
  end.

Inductive result (A : Type) :=
| Return (a : A)
| Raise (e : exn).
Arguments Return {A} a.
Arguments Raise {A} e.

#[global] Instance result_bind : MBind result := fun A B k r =>
  match r with
  | Return a => k a
  | Raise e => Raise e
  end.

(** Values bound in [py_func.__globals__].  [None] and [int] are written
    in full wherever they occur, so their identity is never looked at.
    An instance answers [__getstate__] with its state or raises. *)
#[warnings="-register-all"] Inductive pyval :=
| PyNone
| PyInt (n : Z)
| PyBytes (id : oid) (b : bytes)
| PyStr (id : oid) (s : string)
| PyDict (id : oid) (items : list (string * pyval))
| PyObject (id : oid) (module qualname : string) (getstate : result pyval)
| _Intrinsic (id : oid) (_defn : callable)
| Dispatcher (id : oid) (py_func : callable).

(** A [dict] with [str] keys keeps its items in insertion order;
    assigning to a key already present keeps the key's position. *)
Definition dict := list (string * pyval).

Fixpoint dict_get (k : string) (d : dict) : option pyval :=
  match d with
  | [] => None
  | (k', v) :: d' => if decide (k = k') then Some v else dict_get k d'
  end.

Fixpoint dict_setitem (k : string) (v : pyval) (d : dict) : dict :=
  match d with
  | [] => [(k, v)]
  | (k', v') :: d' =>
      if decide (k = k') then (k, v) :: d'
      else (k', v') :: dict_setitem k v d'
  end.

(** Python's [s[:n]]. *)
Fixpoint slice_to (n : nat) (s : string) : string :=
  match n, s with
  | S n', String c s' => String c (slice_to n' s')
  | _, _ => EmptyString
  end.
#[global] Arguments slice_to : simpl nomatch.

Definition getattr___code__ (f : callable) : result code :=
  match code_of f with
  | Some c => Return c
  | None => Raise (AttributeError "__code__")
  end.

End Py.

(** ** The locator of [cre_cache.py] *)

Module CreCache.
Import Py.

(** [py_func]: a Python function, with the two attributes read by
    [_PreciseCacheLocator.__init__]. *)
Record function := Function {
  __code__ : code;
  __globals__ : gmap string pyval
}.

(** Instance attributes of [_PreciseCacheLocator].  [_py_file] is set
    by [super().__init__(py_func, py_file)], which also derives the cache
    directory from it; the locator's own methods read [_func_hash] only. *)
Record _PreciseCacheLocator := Locator {
  _py_file : string;
  _py_func : function;
  _func_hash : string
}.

(** The dict that [used_globals = {}] allocates. *)
Definition used_globals_id : oid := Created 0.

Section Locator.

(** [numba.core.serialize.dumps]: the pickled bytes of a value, or the
    exception that pickling it raises. *)
Variable dumps : pyval -> result bytes.

(** One iteration of [for k in code.co_names]. *)
Definition loop_body (glbs : gmap string pyval) (k : string)
    (used_globals : dict) : result dict :=
  match glbs !! k with
  | None => Return used_globals                       (* continue *)
  | Some v =>
      match v with
      | _Intrinsic _ _defn =>
          c ← getattr___code__ _defn;
          let v_code := PyBytes (co_code_id c) (co_code c) in
          Return (dict_setitem k v_code used_globals)
      | Dispatcher _ py_func =>
          c ← getattr___code__ py_func;
          let v_code := PyBytes (co_code_id c) (co_code c) in
          Return (dict_setitem k v_code used_globals)
      | _ =>
          match dumps v with
          | Raise e =>
              if isinstance_Exception e
              then Return used_globals                (* except Exception: continue *)
              else Raise e
          | Return _ => Return (dict_setitem k v used_globals)
          end
      end
  end.

Fixpoint for_co_names (glbs : gmap string pyval) (names : list string)
    (used_globals : dict) : result dict :=
  match names with
  | [] => Return used_globals
  | k :: names' =>
      used_globals' ← loop_body glbs k used_globals;
      for_co_names glbs names' used_globals'
  end.

(** The value of [used_globals] when the loop is over. *)
Definition collect_used_globals (py_func : function) : result dict :=
  let code := __code__ py_func in
  let glbs := __globals__ py_func in
  for_co_names glbs (co_names code) [].

(** [func_bytes = code.co_code + dumps(used_globals)] *)
Definition func_bytes (py_func : function) : result bytes :=
  used_globals ← collect_used_globals py_func;
  pickled ← dumps (PyDict used_globals_id used_globals);
  Return (co_code (__code__ py_func) ++ pickled).

Definition __init__ (py_func : function) (py_file : string)
    : result _PreciseCacheLocator :=
  b ← func_bytes py_func;
  Return {| _py_file := py_file;
            _py_func := py_func;
            _func_hash := Sha256.hexdigest b |}.

Definition from_function (py_func : function) (py_file : string)
    : result _PreciseCacheLocator :=
  __init__ py_func py_file.

End Locator.

(** A method returns its value and the object it leaves behind. *)
Definition method (A : Type) : Type :=
  _PreciseCacheLocator -> A * _PreciseCacheLocator.

Definition get_source_stamp : method string :=
  fun self => (_func_hash self, self).

Definition get_disambiguator : method string :=
  fun self => (slice_to 10 (_func_hash self), self).

(** Entries of a [_locator_classes] list: this module's locator, or one
    of numba's. *)
Inductive locator_class :=
| PreciseCacheLocator_class
| NumbaLocator_class (name : string).

(** [[_PreciseCacheLocator, *CompileResultCacheImpl._locator_classes]] *)
Definition PreciseCacheImpl_locator_classes
    (CompileResultCacheImpl_locator_classes : list locator_class)
    : list locator_class :=
  [PreciseCacheLocator_class] ++ CompileResultCacheImpl_locator_classes.

End CreCache.

(** ** A reference serializer

    [numba.core.serialize.dumps] runs a pickler of CPython (protocol 4)
    through [CloudPickler.dump].  The properties below are stated for
    any serializer; this one runs the model.  It follows the steps of
    CPython's pickler on the values of [Py.pyval]: the opcodes, the memo,
    which writes a back-reference for an object met before, the recursion
    guard, the batches of dict items, and the frames.  An [_Intrinsic] or
    a [Dispatcher] inside a plain value is written as an instance without
    state: the locator never hands one to the serializer, and numba's own
    reduction of them is not followed. *)

Module Pickle.
Import Py.

Definition ascii_bytes (s : string) : bytes :=
  map (fun c => byte_of_Z (Z.of_N (N_of_ascii c))) (list_ascii_of_string s).

(** Little-endian two's complement on [n] bytes. *)
Definition le_bytes (n : nat) (x : Z) : bytes :=
  map (fun i => byte_of_Z (Z.shiftr x (8 * Z.of_nat i))) (seq 0 n).

(** The state of a pickler: the frames already closed, the frame being
    written, and the memoized objects in the order of their memo index. *)
Record pickler := Pickler {
  output : bytes;
  frame : bytes;
  memo : list oid
}.

Definition FRAME_SIZE_MIN : Z := 4.
Definition FRAME_SIZE_TARGET : Z := 64 * 1024.
Definition BATCHSIZE : nat := 1000.

Definition write (b : bytes) (p : pickler) : pickler :=
  Pickler (output p) (frame p ++ b) (memo p).

(** Close the frame: a frame of four bytes or more gets a [FRAME] header. *)
Definition commit_frame (p : pickler) : pickler :=
  let n := Z.of_nat (length (frame p)) in
  let header := if n <? FRAME_SIZE_MIN then [] else x95 :: le_bytes 8 n in
  Pickler (output p ++ header ++ frame p) [] (memo p).

(** At the start of each [save]: close a frame that reached the target. *)
Definition opcode_boundary (p : pickler) : pickler :=
  if FRAME_SIZE_TARGET <=? Z.of_nat (length (frame p))
  then commit_frame p else p.

(** A header and its payload; a payload of the target size or more goes
    out between frames. *)
Definition write_bytes (header data : bytes) (p : pickler) : pickler :=
  if FRAME_SIZE_TARGET <=? Z.of_nat (length data)
  then let p' := commit_frame p in
       Pickler (output p' ++ header ++ data) [] (memo p')
  else write (header ++ data) p.

Fixpoint memo_index (id : oid) (m : list oid) (i : nat) : option nat :=
  match m with
  | [] => None
  | id' :: m' => if decide (id = id') then Some i else memo_index id m' (S i)
  end.

(** [BINGET] or [LONG_BINGET] *)
Definition memo_get (i : nat) : bytes :=
  if (i <? 256)%nat then [x68; byte_of_Z (Z.of_nat i)]
  else x6a :: le_bytes 4 (Z.of_nat i).

(** [MEMOIZE] *)
Definition memo_put (id : oid) (p : pickler) : pickler :=
  Pickler (output p) (frame p ++ [x94]) (memo p ++ [id]).

(** An object met before is written as a back-reference. *)
Definition with_memo (id : oid) (p : pickler)
    (save_new : pickler -> result pickler) : result pickler :=
  match memo_index id (memo p) 0 with
  | Some i => Return (write (memo_get i) p)
  | None => save_new p
  end.

(** [Py_EnterRecursiveCall] *)
Definition enter (depth : nat) : result nat :=
  match depth with
  | O => Raise (Exception "RecursionError")
  | S d => Return d
  end.

Definition save_long (n : Z) : bytes :=
  if (0 <=? n) && (n <? 256) then [x4b; byte_of_Z n]            (* BININT1 *)
  else if (0 <=? n) && (n <? 65536) then x4d :: le_bytes 2 n    (* BININT2 *)
  else if (- 2 ^ 31 <=? n) && (n <? 2 ^ 31) then x4a :: le_bytes 4 n  (* BININT *)
  else
    let magnitude := if n <? 0 then - n - 1 else n in
    let k := Z.to_nat ((Z.log2 magnitude + 9) / 8) in
    if (k <? 256)%nat then x8a :: byte_of_Z (Z.of_nat k) :: le_bytes k n  (* LONG1 *)
    else x8b :: le_bytes 4 (Z.of_nat k) ++ le_bytes k n.                  (* LONG4 *)

Definition bytes_header (b : bytes) : bytes :=
  let n := Z.of_nat (length b) in
  if n <? 256 then [x43; byte_of_Z n]                        (* SHORT_BINBYTES *)
  else if n <? 2 ^ 32 then x42 :: le_bytes 4 n               (* BINBYTES *)
  else x8e :: le_bytes 8 n.                                  (* BINBYTES8 *)

Definition str_header (b : bytes) : bytes :=
  let n := Z.of_nat (length b) in
  if n <? 256 then [x8c; byte_of_Z n]                        (* SHORT_BINUNICODE *)
  else if n <? 2 ^ 32 then x58 :: le_bytes 4 n               (* BINUNICODE *)
  else x8d :: le_bytes 8 n.                                  (* BINUNICODE8 *)

Definition save_bytes (id : oid) (b : bytes) (p : pickler) : result pickler :=
  with_memo id p (fun p =>
    Return (memo_put id (write_bytes (bytes_header b) b p))).

Definition save_str (id : oid) (s : string) (p : pickler) : result pickler :=
  with_memo id p (fun p =>
    let b := ascii_bytes s in
    Return (memo_put id (write_bytes (str_header b) b p))).

(** [save] of a [str] that is not a value of the model: a dict key, a
    module name, a class name. *)
Definition save_name (depth : nat) (s : string) (p : pickler)
    : result pickler :=
  let p := opcode_boundary p in
  _ ← enter depth;
  save_str (Interned s) s p.

(** [save] of a class, [save_global]: module name, qualified name,
    [STACK_GLOBAL]. *)
Definition save_class (depth : nat) (module qualname : string) (p : pickler)
    : result pickler :=
  let p := opcode_boundary p in
  d ← enter depth;
  with_memo (ClassOf module qualname) p (fun p =>
    p ← save_name d module p;
    p ← save_name d qualname p;
    Return (memo_put (ClassOf module qualname) (write [x93] p))).

(** [cls.__new__(cls)]: the class, the empty tuple, [NEWOBJ]. *)
Definition save_newobj (depth : nat) (id : oid) (module qualname : string)
    (p : pickler) : result pickler :=
  p ← save_class depth module qualname p;
  _ ← enter depth;
  Return (memo_put id (write [x29; x81] (opcode_boundary p))).

(** [batch_dict_exact]: one item with [SETITEM]; otherwise batches of
    [BATCHSIZE] items between [MARK] and [SETITEMS], with one more batch
    after a full one. *)
Definition batch_dict (save_value : pickler -> pyval -> result pickler)
    (depth : nat) : nat -> list (string * pyval) -> pickler -> result pickler :=
  fix batch (i : nat) (items : list (string * pyval)) (p : pickler)
      : result pickler :=
    match items with
    | [] => Return (write [x75] p)
    | (k, x) :: items' =>
        p ← save_name depth k p;
        p ← save_value p x;
        if (S i =? BATCHSIZE)%nat
        then batch O items' (write [x75; x28] p)
        else batch (S i) items' p
    end.

Fixpoint save (depth : nat) (p : pickler) (v : pyval) {struct v}
    : result pickler :=
  let p := opcode_boundary p in
  match depth with
  | O => Raise (Exception "RecursionError")
  | S d =>
      match v with
      | PyNone => Return (write [x4e] p)
      | PyInt n => Return (write (save_long n) p)
      | PyBytes id b => save_bytes id b p
      | PyStr id s => save_str id s p
      | PyDict id items =>
          with_memo id p (fun p =>
            let p := memo_put id (write [x7d] p) in          (* EMPTY_DICT *)
            match items with
            | [] => Return p
            | [(k, x)] =>
                d' ← enter d;
                p ← save_name d' k p;
                p ← save d' p x;
                Return (write [x73] p)                       (* SETITEM *)
            | _ =>
                d' ← enter d;
                batch_dict (save d') d' O items (write [x28] p)
            end)
      | PyObject id module qualname getstate =>
          with_memo id p (fun p =>
            match getstate with
            | Raise e => Raise e
            | Return state =>
                p ← save_newobj d id module qualname p;
                match state with
                | PyNone => Return p
                | _ =>
                    p ← save d p state;
                    Return (write [x62] p)                   (* BUILD *)
                end
            end)
      | _Intrinsic id _ =>
          with_memo id p (save_newobj d id "numba.extending" "_Intrinsic")
      | Dispatcher id _ =>
          with_memo id p (save_newobj d id "numba.core.dispatcher" "Dispatcher")
      end
  end.

(** [Pickler.dump]: [PROTO 4], the object, [STOP], the last frame. *)
Definition dumps_within (depth : nat) (v : pyval) : result bytes :=
  p ← save depth (Pickler [] [] []) v;
  Return ([x80; x04] ++ output (commit_frame (write [x2e] p))).

(** [CloudPickler.dump], which numba's pickler inherits, raises the
    [RecursionError] of the pickler again as [PicklingError]. *)
Definition reraise (e : exn) : exn :=
  match e with
  | Exception cls =>
      if String.eqb cls "RecursionError" then Exception "PicklingError" else e
  | _ => e
  end.

(** The recursion limit of the interpreter, with the frames in use when
    the locator runs not counted. *)
Definition recursion_limit : nat := 1000.

(** [numba.core.serialize.dumps] *)
Definition dumps (v : pyval) : result bytes :=
  match dumps_within recursion_limit v with
  | Return pickled => Return pickled
  | Raise e => Raise (reraise e)
  end.

End Pickle.

(** ** Vocabulary of the properties *)

Module Props.
Import Py CreCache.

(** The callable inside a wrapped-definition ([_Intrinsic]) or a
    compiled-dispatch ([Dispatcher]) value. *)
Definition inner_callable (v : pyval) : option callable :=
  match v with
  | _Intrinsic _ _defn => Some _defn
  | Dispatcher _ py_func => Some py_func
  | _ => None
  end.

(** A plain value is one that is neither. *)
Definition plain (v : pyval) : Prop := inner_callable v = None.

(** What a candidate global contributes to the mapping: the [bytes]
    object holding the inner instruction bytes for a wrapped value, the
    value itself for a plain value that serializes, nothing for one that
    does not. *)
Definition contribution (dumps : pyval -> result bytes) (v : pyval)
    : option pyval :=
  match inner_callable v with
  | Some f => (fun c => PyBytes (co_code_id c) (co_code c)) <$> code_of f
  | None => match dumps v with Return _ => Some v | Raise _ => None end
  end.

(** The exception with which a global stops the loop, if it does: a
    wrapped value whose inner callable has no code object, or a plain
    value whose serialization raises what [except Exception] lets
    through. *)
Definition offence (dumps : pyval -> result bytes) (v : pyval)
    : option exn :=
  match inner_callable v with
  | Some f =>
      match code_of f with
      | Some _ => None
      | None => Some (AttributeError "__code__")
      end
  | None =>
      match dumps v with
      | Return _ => None
      | Raise e => if isinstance_Exception e then None else Some e
      end
  end.

(** The entry of name [k] in the name-to-contribution mapping of the
    referenced globals of [py_func]. *)
Definition referenced_contribution (dumps : pyval -> result bytes)
    (py_func : function) (k : string) : option pyval :=
  if decide (k ∈ co_names (__code__ py_func))
  then __globals__ py_func !! k ≫= contribution dumps
  else None.

(** The same mapping with its order: the names of [names] at their first
    occurrence, those with an entry, each with its entry.  [seen] holds
    the names met so far. *)
Fixpoint entries_from (entry : string -> option pyval)
    (seen names : list string) : dict :=
  match names with
  | [] => []
  | k :: names' =>
      if decide (k ∈ seen) then entries_from entry seen names'
      else
        match entry k with
        | Some c => (k, c) :: entries_from entry (k :: seen) names'
        | None => entries_from entry (k :: seen) names'
        end
  end.

Definition referenced_mapping (dumps : pyval -> result bytes)
    (py_func : function) : dict :=
  entries_from (fun k => __globals__ py_func !! k ≫= contribution dumps)
               [] (co_names (__code__ py_func)).

(** The names of a list in the order of their first occurrence. *)
Fixpoint first_names (seen names : list string) : list string :=
  match names with
  | [] => []
  | k :: names' =>
      if decide (k ∈ seen) then first_names seen names'
      else k :: first_names (seen ++ [k]) names'
  end.

(** The referenced globals of a function: the names of [co_names] that
    are keys of its globals, in the order in which the code first names
    them. *)
Definition referenced_globals (py_func : function) : list string :=
  first_names []
    (filter (fun k => is_Some (__globals__ py_func !! k))
            (co_names (__code__ py_func))).



(** The stamp of a construction attempt. *)
Definition stamp_of (r : result _PreciseCacheLocator) : result string :=
  self ← r; Return (get_source_stamp self).1.

Definition lower_hex : list ascii := list_ascii_of_string "0123456789abcdef".

(** Two mappings with the same keys bound to the same values. *)
Definition same_mapping (m1 m2 : dict) : Prop :=
  ∀ k, dict_get k m1 = dict_get k m2.

End Props.

(** ** Functions to run the locator on *)

Module Examples.
Import Py CreCache.

(** [def func(x):  if bad_obj: return x + 1;  return x] *)
Definition branch_code : bytes :=
  [x74; x00; x72; x0c; x7c; x00; x64; x01; x17; x00; x53; x00;
   x7c; x00; x53; x00].

(** [return a - b] *)
Definition sub_code : bytes :=
  [x74; x00; x74; x01; x18; x00; x53; x00].

(** [return 1]: [LOAD_CONST 1; RETURN_VALUE] *)
Definition const_code : bytes := [x64; x01; x53; x00].
Definition other_code : bytes := [x64; x02; x53; x00].

(** [return x.shape] and [return x.size]: [LOAD_GLOBAL 0; LOAD_ATTR 1;
    RETURN_VALUE], the attribute being a name of [co_names]. *)
Definition attr_code : bytes := [x74; x00; x6a; x01; x53; x00].

(** The function under study; its own [co_code] object is [Given 1]. *)
Definition def (co : bytes) (names : list string) (consts : list constant)
    (glbs : gmap string pyval) : function :=
  Function (Code co (Given 1) names consts) glbs.

(** An instance whose [__getstate__] raises [RuntimeError], as [Bad] in
    the test; and one whose [__getstate__] is interrupted. *)
Definition Bad : pyval :=
  PyObject (Given 50) "mod" "Bad" (Raise (Exception "RuntimeError")).

Definition no_globals : function := def const_code [] [KNone; KInt 1] ∅.

Definition uses_g (glbs : gmap string pyval) : function :=
  def branch_code ["g"] [KNone; KInt 1] glbs.

Definition uses_g_bad (glbs : gmap string pyval) : function :=
  def branch_code ["g"; "bad_obj"] [KNone; KInt 1] glbs.

(** The function of [test_precise_cache_skips_unpicklable_global], with
    [bad_obj] a global. *)
Definition test_func : function :=
  def branch_code ["bad_obj"] [KNone; KInt 1] {[ "bad_obj" := Bad ]}.

Definition a_minus_b (glbs : gmap string pyval) : function :=
  def sub_code ["a"; "b"] [KNone] glbs.
Definition b_minus_a (glbs : gmap string pyval) : function :=
  def sub_code ["b"; "a"] [KNone] glbs.

Definition ab : gmap string pyval := {[ "a" := PyInt 1; "b" := PyInt 2 ]}.

(** A Python function with the given instruction bytes, held in the
    [bytes] object [Given a]. *)
Definition inner (a : positive) (co : bytes) : callable :=
  Callable (Some (Code co (Given a) [] [KNone; KInt 1])).


Definition calls_helper (v : pyval) : function :=
  def branch_code ["helper"] [KNone] {[ "helper" := v ]}.

(** Names a plain global, one that does not serialize, a wrapped
    definition, and the builtin [len], which is not a global. *)
Definition mixed : function :=
  def branch_code ["g"; "bad_obj"; "helper"; "len"] [KNone]
      {[ "g" := PyInt 5; "bad_obj" := Bad;
         "helper" := _Intrinsic (Given 60) (inner 61 const_code);
         "unused" := PyStr (Given 62) "spam" ]}.

Definition x_shape (glbs : gmap string pyval) : function :=
  def attr_code ["x"; "shape"] [KNone] glbs.
Definition x_size (glbs : gmap string pyval) : function :=
  def attr_code ["x"; "size"] [KNone] glbs.

(** [pickle.dumps({'a': b'x'})] without its last three bytes, and the
    bytes that [pickle.dumps({'g': ...})] writes in front of a [bytes]
    value of that length. *)
Definition pickle_head : bytes :=
  [x80; x04; x95; x0c; x00; x00; x00; x00; x00; x00; x00;
   x7d; x94; x8c; x01; x61; x94; x43; x01; x78].
Definition splice : bytes :=
  [x80; x04; x95; x1f; x00; x00; x00; x00; x00; x00; x00;
   x7d; x94; x8c; x01; x67; x94; x43; x14].

Definition holds_pickle (co : bytes) : function :=
  def co ["g"] [KNone] {[ "g" := PyBytes (Given 70) pickle_head ]}.
Definition spliced (co : bytes) : function :=
  def (co ++ splice) ["a"] [KNone] {[ "a" := PyBytes (Given 71) [x78] ]}.

(** [{'k': {'k': ... {} ...}}], [n] dicts around the empty one. *)
Fixpoint nest (n : nat) : pyval :=
  match n with
  | O => PyDict (Given 100) []
  | S n' => PyDict (Given (100 + Pos.of_succ_nat n')) [("k", nest n')]
  end.

(** The deepest of them that the reference serializer accepts. *)
Definition deep : pyval := nest 499.

(** One dispatcher under two names, and two dispatchers of functions
    with the same instruction bytes. *)
Definition twice (d1 d2 : pyval) : function :=
  def sub_code ["a"; "b"] [KNone] {[ "a" := d1; "b" := d2 ]}.

End Examples.

Import Py CreCache Props.

(** * Properties *)

(** ** The digest *)

Section DigestFacts.

Lemma length_flat_map_const {A B} (f : A → list B) (n : nat) (l : list A) :
  (∀ x, length (f x) = n) → length (flat_map f l) = (length l * n)%nat.
Proof.
  intros Hf. induction l as [|x l IH]; simpl; [done|].
  rewrite length_app, Hf, IH. lia.
Qed.

Lemma Forall_flat_map_all {A B} (P : B → Prop) (f : A → list B) (l : list A) :
  (∀ x, Forall P (f x)) → Forall P (flat_map f l).
Proof.
  intros Hf. induction l as [|x l IH]; simpl; [constructor|].
  apply Forall_app. split; [apply Hf | apply IH].
Qed.

Lemma length_be_bytes n x : length (Sha256.be_bytes n x) = n.
Proof.
  unfold Sha256.be_bytes.
  by rewrite length_map, length_rev, length_seq.
Qed.

Lemma length_digest msg : length (Sha256.digest msg) = 32%nat.
Proof.
  unfold Sha256.digest.
  rewrite (length_flat_map_const _ 4%nat); [reflexivity|].
  intros x. apply length_be_bytes.
Qed.

Lemma hex_byte_lower b : Forall (λ c, In c lower_hex) (Sha256.hex_byte b).
Proof.
  apply Forall_forall. intros c Hc.
  assert (Hall : forallb (λ c, existsb (Ascii.eqb c) lower_hex)
                   (Sha256.hex_byte b) = true)
    by (destruct b; vm_compute; reflexivity).
  rewrite forallb_forall in Hall.
  apply list_elem_of_In in Hc. specialize (Hall c Hc).
  apply existsb_exists in Hall as (c' & Hin & Heq).
  by apply Ascii.eqb_eq in Heq as ->.
Qed.

Lemma string_length_of_list cs :
  String.length (string_of_list_ascii cs) = length cs.
Proof. induction cs as [|c cs IH]; simpl; [done | by rewrite IH]. Qed.

Lemma hexdigest_length msg : String.length (Sha256.hexdigest msg) = 64%nat.
Proof.
  unfold Sha256.hexdigest. rewrite string_length_of_list.
  rewrite (length_flat_map_const _ 2%nat); [|reflexivity].
  rewrite length_digest. reflexivity.
Qed.

Lemma hexdigest_lower msg :
  Forall (λ c, In c lower_hex) (list_ascii_of_string (Sha256.hexdigest msg)).
Proof.
  unfold Sha256.hexdigest. rewrite list_ascii_of_string_of_list_ascii.
  apply Forall_flat_map_all, hex_byte_lower.
Qed.

Lemma slice_to_length n s :
  String.length (slice_to n s) = (n `min` String.length s)%nat.
Proof.
  revert s. induction n as [|n IH]; intros [|c s]; simpl; try done.
  by rewrite IH.
Qed.

(** A slice is a prefix: the string is the slice followed by a rest. *)
Lemma slice_to_prefix n s : ∃ rest, s = (slice_to n s ++ rest)%string.
Proof.
  revert s. induction n as [|n IH]; intros s.
  - exists s. by destruct s.
  - destruct s as [|c s]; simpl; [by exists EmptyString|].
    destruct (IH s) as [rest Hrest]. exists rest.
    change (String c s = String c (slice_to n s +:+ rest)). congruence.
Qed.

End DigestFacts.

(** ** The insertion-ordered dict *)

Section DictFacts.

Lemma dict_get_setitem_eq k v d : dict_get k (dict_setitem k v d) = Some v.
Proof.
  induction d as [|[k' v'] d IH]; simpl.
  - by rewrite decide_True.
  - destruct (decide (k = k')) as [->|Hne]; simpl.
    + by rewrite decide_True.
    + by rewrite decide_False.
Qed.

Lemma dict_get_setitem_ne k k' v d :
  k ≠ k' → dict_get k' (dict_setitem k v d) = dict_get k' d.
Proof.
  intros Hne. induction d as [|[k0 v0] d IH]; simpl.
  - by rewrite decide_False.
  - destruct (decide (k = k0)) as [->|Hne0]; simpl.
    + by rewrite !decide_False.
    + destruct (decide (k' = k0)); [done | apply IH].
Qed.

Lemma dict_setitem_same k v d :
  dict_get k d = Some v → dict_setitem k v d = d.
Proof.
  induction d as [|[k' v'] d IH]; simpl; [done|].
  destruct (decide (k = k')) as [->|Hne]; [by intros [= ->]|].
  intros Hget. by rewrite IH.
Qed.

Lemma dict_setitem_fresh k v d :
  dict_get k d = None → dict_setitem k v d = d ++ [(k, v)].
Proof.
  induction d as [|[k' v'] d IH]; simpl; [done|].
  destruct (decide (k = k')) as [->|Hne]; [done|].
  intros Hget. by rewrite IH.
Qed.

Lemma dict_get_not_key k (d : dict) : k ∉ d.*1 → dict_get k d = None.
Proof.
  induction d as [|[k' v] d IH]; cbn; [done|].
  intros [Hne Hk]%not_elem_of_cons. rewrite decide_False by done. by apply IH.
Qed.

(** Two dicts without repeated keys, with the keys in the same order and
    the same value under each key, are the same list of items. *)
Lemma dict_eq_of_keys (d1 d2 : dict) :
  NoDup d1.*1 → d1.*1 = d2.*1 → same_mapping d1 d2 → d1 = d2.
Proof.
  revert d2. induction d1 as [|[k v] d1 IH]; intros [|[k' v'] d2]; cbn;
    try done.
  intros [Hk Hnodup]%NoDup_cons [= <- Hkeys] Hsame.
  pose proof (Hsame k) as Hv. cbn in Hv. rewrite !decide_True in Hv by done.
  injection Hv as <-. f_equal. apply IH; try done.
  intros k'. destruct (decide (k' = k)) as [->|Hne].
  - rewrite !dict_get_not_key; [done | by rewrite <- Hkeys | done].
  - specialize (Hsame k'). cbn in Hsame. by rewrite !decide_False in Hsame.
Qed.

End DictFacts.

(** ** The loop over [co_names] *)

Section LoopFacts.

Variable dumps : pyval → result bytes.

Implicit Types (glbs : gmap string pyval) (used : dict) (k : string).

(** Unfold one successful construction. *)
Lemma init_inv py_func py_file self :
  __init__ dumps py_func py_file = Return self →
  ∃ used pickled,
    collect_used_globals dumps py_func = Return used ∧
    dumps (PyDict used_globals_id used) = Return pickled ∧
    func_bytes dumps py_func
      = Return (co_code (__code__ py_func) ++ pickled) ∧
    self = Locator py_file py_func
             (Sha256.hexdigest (co_code (__code__ py_func) ++ pickled)).
Proof.
  unfold __init__, func_bytes.
  destruct (collect_used_globals dumps py_func) as [used|e] eqn:Hused; [|done].
  cbn. destruct (dumps (PyDict _ used)) as [pickled|e] eqn:Hpickled; [|done].
  cbn. intros [= <-]. by exists used, pickled.
Qed.

(** The branches of the loop body, by the kind of the value. *)
Lemma loop_body_eq glbs k used :
  loop_body dumps glbs k used =
  match glbs !! k with
  | None => Return used
  | Some v =>
      match inner_callable v with
      | Some f =>
          c ← getattr___code__ f;
          Return (dict_setitem k (PyBytes (co_code_id c) (co_code c)) used)
      | None =>
          match dumps v with
          | Return _ => Return (dict_setitem k v used)
          | Raise e => if isinstance_Exception e then Return used else Raise e
          end
      end
  end.
Proof.
  unfold loop_body. destruct (glbs !! k) as [v|]; [|done]. by destruct v.
Qed.

(** Case analysis on an iteration: the name is not a global, or names a
    wrapped value (with or without code), or a plain one, which [dumps]
    accepts or not, with an [Exception] or not. *)
Ltac loop_body_cases glbs k :=
  rewrite loop_body_eq; unfold contribution, offence, getattr___code__;
  destruct (glbs !! k) as [?v|] eqn:?Hv; cbn;
  [ destruct (inner_callable _) as [?f|] eqn:?Hinner; cbn;
    [ destruct (code_of _) as [?c|] eqn:?Hc; cbn
    | destruct (dumps _) as [?p|?e] eqn:?Hd; cbn;
      [ | destruct (isinstance_Exception _) eqn:?He; cbn ] ]
  | ].

(** One iteration stores the contribution of the name, if it has one. *)
Lemma loop_body_spec glbs k used used' :
  loop_body dumps glbs k used = Return used' →
  used' = match glbs !! k ≫= contribution dumps with
          | Some c => dict_setitem k c used
          | None => used
          end.
Proof. loop_body_cases glbs k; congruence. Qed.

(** An iteration raises when its global offends, with that exception. *)
Lemma loop_body_raises glbs k used e :
  loop_body dumps glbs k used = Raise e ↔
  glbs !! k ≫= offence dumps = Some e.
Proof. loop_body_cases glbs k; split; congruence. Qed.

Lemma loop_body_returns glbs k used :
  (∃ used', loop_body dumps glbs k used = Return used') ↔
  glbs !! k ≫= offence dumps = None.
Proof.
  destruct (loop_body dumps glbs k used) as [u|e] eqn:Hbody.
  - split; [intros _|by eexists].
    destruct (glbs !! k ≫= offence dumps) as [e|] eqn:Hoff; [|done].
    apply (loop_body_raises glbs k used) in Hoff. congruence.
  - apply loop_body_raises in Hbody. rewrite Hbody.
    split; [by intros [? ?] | done].
Qed.

(** What one iteration does to the entry of each name. *)
Lemma loop_body_get glbs k0 used used' k :
  loop_body dumps glbs k0 used = Return used' →
  dict_get k used' =
    if decide (k = k0)
    then match glbs !! k0 ≫= contribution dumps with
         | Some c => Some c
         | None => dict_get k used
         end
    else dict_get k used.
Proof.
  intros ->%loop_body_spec.
  destruct (glbs !! k0 ≫= contribution dumps) as [c|];
    destruct (decide (k = k0)) as [->|Hne];
    try done.
  - apply dict_get_setitem_eq.
  - by apply dict_get_setitem_ne.
Qed.

Lemma for_co_names_get glbs names used0 used k :
  for_co_names dumps glbs names used0 = Return used →
  dict_get k used =
    if decide (k ∈ names)
    then match glbs !! k ≫= contribution dumps with
         | Some c => Some c
         | None => dict_get k used0
         end
    else dict_get k used0.
Proof.
  revert used0. induction names as [|k0 names IH]; intros used0; cbn.
  - intros [= <-]. rewrite decide_False; [done | apply not_elem_of_nil].
  - destruct (loop_body dumps glbs k0 used0) as [used1|e] eqn:Hbody;
      cbn; [|done].
    intros Hrest. rewrite (IH _ Hrest).
    rewrite (loop_body_get _ _ _ _ k Hbody).
    destruct (decide (k = k0)) as [->|Hne].
    + rewrite (decide_True (P := k0 ∈ k0 :: names)) by apply list_elem_of_here.
      destruct (decide (k0 ∈ names)); [|done].
      by destruct (glbs !! k0 ≫= contribution dumps).
    + destruct (decide (k ∈ names)) as [Hin|Hnin].
      * rewrite decide_True; [done | by apply list_elem_of_further].
      * rewrite decide_False; [done|].
        by intros [?|?]%elem_of_cons.
Qed.

(** The loop appends, in the order of [names], the entries of the names
    it has not met. *)
Lemma for_co_names_spec glbs seen names used0 used :
  (∀ k, k ∈ seen → dict_get k used0 = glbs !! k ≫= contribution dumps) →
  (∀ k, k ∉ seen → dict_get k used0 = None) →
  for_co_names dumps glbs names used0 = Return used →
  used = used0 ++ entries_from (λ k, glbs !! k ≫= contribution dumps) seen names.
Proof.
  revert seen used0.
  induction names as [|k0 names IH]; intros seen used0 Hseen Hfresh; cbn.
  - intros [= <-]. by rewrite app_nil_r.
  - destruct (loop_body dumps glbs k0 used0) as [used1|e] eqn:Hbody;
      cbn; [|done].
    apply loop_body_spec in Hbody. intros Hrest.
    destruct (decide (k0 ∈ seen)) as [Hin|Hnin].
    + assert (used1 = used0) as ->.
      { rewrite Hbody. specialize (Hseen k0 Hin).
        destruct (glbs !! k0 ≫= contribution dumps); [|done].
        by apply dict_setitem_same. }
      by apply IH.
    + assert (Hseen' : ∀ k, k ∈ k0 :: seen →
                dict_get k used1 = glbs !! k ≫= contribution dumps).
      { intros k Hk. rewrite Hbody.
        destruct (decide (k = k0)) as [->|Hne].
        - destruct (glbs !! k0 ≫= contribution dumps);
            [apply dict_get_setitem_eq | by apply Hfresh].
        - apply elem_of_cons in Hk as [?|Hk]; [done|].
          destruct (glbs !! k0 ≫= contribution dumps);
            [rewrite dict_get_setitem_ne by done|]; by apply Hseen. }
      assert (Hfresh' : ∀ k, k ∉ k0 :: seen → dict_get k used1 = None).
      { intros k Hk. apply not_elem_of_cons in Hk as [Hne Hk]. rewrite Hbody.
        destruct (glbs !! k0 ≫= contribution dumps);
          [rewrite dict_get_setitem_ne by done|]; by apply Hfresh. }
      rewrite (IH _ _ Hseen' Hfresh' Hrest), Hbody.
      destruct (glbs !! k0 ≫= contribution dumps) as [c|]; [|done].
      rewrite (dict_setitem_fresh _ _ _ (Hfresh k0 Hnin)).
      by rewrite <- app_assoc.
Qed.

(** The loop ends with the mapping of the referenced globals. *)
Lemma collect_spec py_func used :
  collect_used_globals dumps py_func = Return used →
  used = referenced_mapping dumps py_func.
Proof.
  unfold collect_used_globals, referenced_mapping. intros Hloop.
  apply (for_co_names_spec _ []) in Hloop; [done| |done].
  intros k Hk. by apply elem_of_nil in Hk.
Qed.

(** The mapping the loop builds binds each name to its contribution. *)
Lemma collect_get py_func used k :
  collect_used_globals dumps py_func = Return used →
  dict_get k used = referenced_contribution dumps py_func k.
Proof.
  unfold collect_used_globals, referenced_contribution. intros Hloop.
  rewrite (for_co_names_get _ _ _ _ k Hloop). cbn.
  destruct (decide (k ∈ _)); [|done].
  by destruct (_ ≫= _).
Qed.

(** The loop reads the globals at the names it is given, nowhere else. *)
Lemma loop_body_ext glbs1 glbs2 k used0 :
  glbs1 !! k = glbs2 !! k →
  loop_body dumps glbs1 k used0 = loop_body dumps glbs2 k used0.
Proof. unfold loop_body. by intros ->. Qed.

(** Two global mappings on which every iteration agrees. *)
Lemma for_co_names_agree glbs1 glbs2 names used0 :
  (∀ k used, k ∈ names →
     loop_body dumps glbs1 k used = loop_body dumps glbs2 k used) →
  for_co_names dumps glbs1 names used0 = for_co_names dumps glbs2 names used0.
Proof.
  revert used0. induction names as [|k0 names IH]; intros used0 Hagree; [done|].
  cbn. rewrite Hagree by apply list_elem_of_here.
  destruct (loop_body dumps glbs2 k0 used0); cbn; [|done].
  apply IH. intros k used Hk. apply Hagree. by apply list_elem_of_further.
Qed.

Lemma for_co_names_ext glbs1 glbs2 names used0 :
  (∀ k, k ∈ names → glbs1 !! k = glbs2 !! k) →
  for_co_names dumps glbs1 names used0 = for_co_names dumps glbs2 names used0.
Proof.
  intros Hagree. apply for_co_names_agree.
  intros k used Hk. by apply loop_body_ext, Hagree.
Qed.

Lemma for_co_names_app glbs names1 names2 used0 :
  for_co_names dumps glbs (names1 ++ names2) used0
  = used1 ← for_co_names dumps glbs names1 used0;
    for_co_names dumps glbs names2 used1.
Proof.
  revert used0. induction names1 as [|k names1 IH]; intros used0; [done|].
  cbn. destruct (loop_body dumps glbs k used0); cbn; [apply IH | done].
Qed.

(** The loop runs to its end exactly when no name it meets offends. *)
Lemma for_co_names_returns glbs names used0 :
  (∃ used, for_co_names dumps glbs names used0 = Return used) ↔
  ∀ k, k ∈ names → glbs !! k ≫= offence dumps = None.
Proof.
  revert used0. induction names as [|k0 names IH]; intros used0; cbn.
  - split; [|by eexists]. intros _ k Hk. by apply elem_of_nil in Hk.
  - destruct (loop_body dumps glbs k0 used0) as [used1|e] eqn:Hbody; cbn.
    + assert (Hk0 : glbs !! k0 ≫= offence dumps = None)
        by (eapply loop_body_returns; by eexists).
      rewrite IH. split.
      * intros Hall k [->|Hk]%elem_of_cons; [done | by apply Hall].
      * intros Hall k Hk. by apply Hall, list_elem_of_further.
    + apply loop_body_raises in Hbody. split; [by intros [? ?]|].
      intros Hall. rewrite (Hall k0) in Hbody by apply list_elem_of_here.
      done.
Qed.



(** A name met before is passed over. *)
Lemma for_co_names_repeated glbs names1 names2 k used0 :
  k ∈ names1 →
  for_co_names dumps glbs (names1 ++ k :: names2) used0
  = for_co_names dumps glbs (names1 ++ names2) used0.
Proof.
  intros Hk. rewrite !for_co_names_app.
  destruct (for_co_names dumps glbs names1 used0) as [used1|e] eqn:Hloop;
    cbn; [|done].
  assert (Hoff : glbs !! k ≫= offence dumps = None).
  { eapply for_co_names_returns; [by eexists | done]. }
  apply (loop_body_returns glbs k used1) in Hoff as [used2 Hbody].
  rewrite Hbody. cbn. apply loop_body_spec in Hbody.
  pose proof (for_co_names_get _ _ _ _ k Hloop) as Hget.
  rewrite decide_True in Hget by done.
  destruct (glbs !! k ≫= contribution dumps) as [c|]; [|by subst].
  by rewrite Hbody, dict_setitem_same.
Qed.

(** Names that are not globals are passed over. *)
Lemma for_co_names_filter_bound glbs names used0 :
  for_co_names dumps glbs (filter (λ k, is_Some (glbs !! k)) names) used0
  = for_co_names dumps glbs names used0.
Proof.
  revert used0. induction names as [|k names IH]; intros used0; [done|].
  rewrite filter_cons. destruct (decide (is_Some (glbs !! k))) as [Hk|Hk].
  - cbn. destruct (loop_body dumps glbs k used0); cbn; [apply IH | done].
  - cbn. rewrite IH. apply eq_None_not_Some in Hk.
    unfold loop_body. by rewrite Hk.
Qed.

Lemma for_co_names_unbound glbs names used0 :
  (∀ k, k ∈ names → glbs !! k = None) →
  for_co_names dumps glbs names used0 = Return used0.
Proof.
  induction names as [|k names IH]; intros Hunbound; [done|].
  cbn. unfold loop_body. rewrite (Hunbound k) by apply list_elem_of_here.
  cbn. apply IH. intros k' Hk'. apply Hunbound. by apply list_elem_of_further.
Qed.



Lemma elem_of_first_names seen names k :
  k ∈ first_names seen names → k ∈ names.
Proof.
  revert seen. induction names as [|k0 names IH]; intros seen; cbn; [done|].
  destruct (decide (k0 ∈ seen)).
  - intros ?%IH. by apply list_elem_of_further.
  - intros [->|?%IH]%elem_of_cons;
      [apply list_elem_of_here | by apply list_elem_of_further].
Qed.

Lemma elem_of_referenced_globals py_func k :
  k ∈ referenced_globals py_func →
  k ∈ co_names (__code__ py_func) ∧ is_Some (__globals__ py_func !! k).
Proof.
  unfold referenced_globals.
  by intros [? ?]%elem_of_first_names%list_elem_of_filter.
Qed.

(** Globals that agree at the names of a list bind the same of them. *)
Lemma filter_bound_ext glbs1 glbs2 (names : list string) :
  (∀ k, k ∈ names → glbs1 !! k = glbs2 !! k) →
  filter (λ k, is_Some (glbs1 !! k)) names
  = filter (λ k, is_Some (glbs2 !! k)) names.
Proof.
  induction names as [|k names IH]; intros Hagree; [done|].
  rewrite !filter_cons, (Hagree k) by apply list_elem_of_here.
  rewrite IH; [done|]. intros k' Hk'. by apply Hagree, list_elem_of_further.
Qed.

(** The entries of [entries_from]: names of the list, not yet met, with
    the entry they are listed with; no name twice. *)
Lemma elem_of_entries_from (entry : string → option pyval) seen names k c :
  (k, c) ∈ entries_from entry seen names →
  k ∈ names ∧ (k ∉ seen) ∧ entry k = Some c.
Proof.
  revert seen. induction names as [|k0 names IH]; intros seen; cbn.
  - by intros ?%elem_of_nil.
  - destruct (decide (k0 ∈ seen)) as [Hin|Hnin].
    + intros (? & ? & ?)%IH. split; [by apply list_elem_of_further | done].
    + destruct (entry k0) as [c0|] eqn:Hentry.
      * intros [[= -> ->]|(? & Hseen & ?)%IH]%elem_of_cons.
        -- split; [apply list_elem_of_here | done].
        -- apply not_elem_of_cons in Hseen as [_ ?].
           split; [by apply list_elem_of_further | done].
      * intros (? & Hseen & ?)%IH.
        apply not_elem_of_cons in Hseen as [_ ?].
        split; [by apply list_elem_of_further | done].
Qed.

Lemma NoDup_entries_from (entry : string → option pyval) seen names :
  NoDup (entries_from entry seen names).*1.
Proof.
  revert seen. induction names as [|k0 names IH]; intros seen; cbn.
  - constructor.
  - destruct (decide (k0 ∈ seen)); [apply IH|].
    destruct (entry k0); [|apply IH].
    cbn. constructor; [|apply IH].
    intros ((k & c) & -> & Hin)%list_elem_of_fmap.
    apply elem_of_entries_from in Hin as (_ & Hseen & _).
    apply Hseen, list_elem_of_here.
Qed.

Lemma length_entries_from (entry : string → option pyval) seen names :
  (length (entries_from entry seen names) ≤ length names)%nat.
Proof.
  revert seen. induction names as [|k0 names IH]; intros seen; cbn; [done|].
  destruct (decide (k0 ∈ seen)); [by apply Nat.le_le_succ_r|].
  destruct (entry k0); cbn; [by apply le_n_S | by apply Nat.le_le_succ_r].
Qed.


End LoopFacts.

(** ** Construction as a whole *)

Section InitFacts.

Variable dumps : pyval → result bytes.

Lemma stamp_of_init py_func py_file :
  stamp_of (__init__ dumps py_func py_file)
  = b ← func_bytes dumps py_func; Return (Sha256.hexdigest b).
Proof.
  unfold stamp_of, __init__.
  by destruct (func_bytes dumps py_func).
Qed.

(** A stored fingerprint is a rendered digest. *)
Lemma init_hash_length py_func py_file self :
  __init__ dumps py_func py_file = Return self →
  String.length (_func_hash self) = 64%nat.
Proof.
  intros (used & pickled & _ & _ & _ & ->)%init_inv.
  apply hexdigest_length.
Qed.

Lemma init_hash_lower py_func py_file self :
  __init__ dumps py_func py_file = Return self →
  Forall (λ c, In c lower_hex) (list_ascii_of_string (_func_hash self)).
Proof.
  intros (used & pickled & _ & _ & _ & ->)%init_inv.
  apply hexdigest_lower.
Qed.

(** The hashed bytes follow the loop. *)
Lemma func_bytes_of_loop (f1 f2 : function) :
  co_code (__code__ f1) = co_code (__code__ f2) →
  collect_used_globals dumps f1 = collect_used_globals dumps f2 →
  func_bytes dumps f1 = func_bytes dumps f2.
Proof. unfold func_bytes. by intros -> ->. Qed.

(** The hashed bytes depend on [co_code], on [co_names], and on the
    globals at those names. *)
Lemma func_bytes_ext (f1 f2 : function) :
  co_code (__code__ f1) = co_code (__code__ f2) →
  co_names (__code__ f1) = co_names (__code__ f2) →
  (∀ k, k ∈ co_names (__code__ f1) →
        __globals__ f1 !! k = __globals__ f2 !! k) →
  func_bytes dumps f1 = func_bytes dumps f2.
Proof.
  intros Hcode Hnames Hagree. apply func_bytes_of_loop; [done|].
  unfold collect_used_globals. rewrite <- Hnames.
  by apply for_co_names_ext.
Qed.


End InitFacts.

(** ** The model against known digests and pickles *)

Example sha256_empty :
  Sha256.hexdigest []
  = "e3b0c44298fc1c149afbf4c8996fb92427ae41e4649b934ca495991b7852b855"%string.
Proof. vm_compute. reflexivity. Qed.

Example sha256_abc :
  Sha256.hexdigest (Pickle.ascii_bytes "abc")
  = "ba7816bf8f01cfea414140de5dae2223b00361a396177a9cb410ff61f20015ad"%string.
Proof. vm_compute. reflexivity. Qed.

Example sha256_two_blocks :
  Sha256.hexdigest
    (Pickle.ascii_bytes "abcdbcdecdefdefgefghfghighijhijkijkljklmklmnlmnomnopnopq")
  = "248d6a61d20638b8e5c026930c3e6039a33ce45964ff2167f6ecedd419db06c1"%string.
Proof. vm_compute. reflexivity. Qed.

(** [pickle.dumps({'a': 1, 'b': 2}, protocol=4)] *)
Example pickle_dict_ab :
  Pickle.dumps (PyDict (Created 0) [("a", PyInt 1); ("b", PyInt 2)]%string)
  = Return [x80; x04; x95; x11; x00; x00; x00; x00; x00; x00; x00;
            x7d; x94; x28; x8c; x01; x61; x94; x4b; x01;
            x8c; x01; x62; x94; x4b; x02; x75; x2e].
Proof. vm_compute. reflexivity. Qed.

(** [x = b'x'; pickle.dumps({'a': x, 'b': x}, protocol=4)]: the second
    occurrence of the object is a back-reference, [BINGET 2]. *)
Example pickle_shared_bytes :
  Pickle.dumps (PyDict (Created 0)
                  [("a", PyBytes (Given 5) [x78]);
                   ("b", PyBytes (Given 5) [x78])]%string)
  = Return [x80; x04; x95; x13; x00; x00; x00; x00; x00; x00; x00;
            x7d; x94; x28; x8c; x01; x61; x94; x43; x01; x78; x94;
            x8c; x01; x62; x94; x68; x02; x75; x2e].
Proof. vm_compute. reflexivity. Qed.

(** The recursion guard: the deepest dict the serializer accepts is
    refused once it is the value of another dict. *)
Example pickle_recursion_guard :
  (∃ pickled, Pickle.dumps Examples.deep = Return pickled) ∧
  Pickle.dumps_within Pickle.recursion_limit
    (PyDict (Created 0) [("g"%string, Examples.deep)])
  = Raise (Exception "RecursionError") ∧
  Pickle.dumps (PyDict (Created 0) [("g"%string, Examples.deep)])
  = Raise (Exception "PicklingError").
Proof.
  split; [eexists; vm_compute; reflexivity|].
  split; vm_compute; reflexivity.
Qed.

(** ** The stamp and the tag *)

(** C1: when [__init__] accepts a function, [_func_hash] is the lowercase
    hexadecimal SHA-256 digest of [code.co_code] followed by the
    serialized mapping that binds each referenced global's name to its
    contribution, and [get_source_stamp()] returns that string. *)
Theorem func_hash_is_sha256_of_code_and_globals
    (dumps : pyval → result bytes) py_func py_file self :
  __init__ dumps py_func py_file = Return self →
  ∃ used_globals pickled,
    collect_used_globals dumps py_func = Return used_globals ∧
    used_globals = referenced_mapping dumps py_func ∧
    (∀ k, dict_get k used_globals = referenced_contribution dumps py_func k) ∧
    dumps (PyDict used_globals_id used_globals) = Return pickled ∧
    _func_hash self
      = Sha256.hexdigest (co_code (__code__ py_func) ++ pickled) ∧
    get_source_stamp self = (_func_hash self, self).
Proof.
  intros (used & pickled & Hused & Hpickled & _ & ->)%init_inv.
  exists used, pickled. repeat split; try done.
  - by apply collect_spec.
  - intros k. by apply collect_get.
Qed.

Lemma func_hash_is_sha256_of_code_and_globals_witness :
  ∃ used_globals pickled,
    collect_used_globals Pickle.dumps (Examples.uses_g {[ "g" := PyInt 5 ]})
      = Return used_globals ∧
    used_globals
      = referenced_mapping Pickle.dumps (Examples.uses_g {[ "g" := PyInt 5 ]}) ∧
    (∀ k, dict_get k used_globals
          = referenced_contribution Pickle.dumps
              (Examples.uses_g {[ "g" := PyInt 5 ]}) k) ∧
    Pickle.dumps (PyDict used_globals_id used_globals) = Return pickled ∧
    "2c3349a66359fb476b45f209bd73a13cc76fdaa5c0021324625963843d3578de"%string
      = Sha256.hexdigest (Examples.branch_code ++ pickled) ∧
    get_source_stamp
      (Locator "mod.py" (Examples.uses_g {[ "g" := PyInt 5 ]})
         "2c3349a66359fb476b45f209bd73a13cc76fdaa5c0021324625963843d3578de")
    = ("2c3349a66359fb476b45f209bd73a13cc76fdaa5c0021324625963843d3578de"%string,
       Locator "mod.py" (Examples.uses_g {[ "g" := PyInt 5 ]})
         "2c3349a66359fb476b45f209bd73a13cc76fdaa5c0021324625963843d3578de").
Proof.
  apply (func_hash_is_sha256_of_code_and_globals Pickle.dumps
           (Examples.uses_g {[ "g" := PyInt 5 ]}) "mod.py"
           (Locator "mod.py" (Examples.uses_g {[ "g" := PyInt 5 ]})
              "2c3349a66359fb476b45f209bd73a13cc76fdaa5c0021324625963843d3578de")).
  vm_compute. reflexivity.
Defined.

(** C10: for every constructed locator, [get_source_stamp()] is 64
    characters long, all in [0-9a-f], and [get_disambiguator()] is 10
    characters long, whatever the function, also when it references no
    global. *)
Theorem stamp_and_tag_lengths
    (dumps : pyval → result bytes) py_func py_file self :
  __init__ dumps py_func py_file = Return self →
  String.length (get_source_stamp self).1 = 64%nat ∧
  Forall (λ c, In c lower_hex)
         (list_ascii_of_string (get_source_stamp self).1) ∧
  String.length (get_disambiguator self).1 = 10%nat.
Proof.
  intros Hinit. cbn.
  split; [by eapply init_hash_length|].
  split; [by eapply init_hash_lower|].
  by rewrite slice_to_length, (init_hash_length _ _ _ _ Hinit).
Qed.

Lemma stamp_and_tag_lengths_witness :
  let self :=
    Locator "mod.py" Examples.no_globals
      "97fbf9bcd66569ab93617117a9a52bcafc8542494e647ec2e80043b5d9e0c5c9" in
  collect_used_globals Pickle.dumps Examples.no_globals = Return [] ∧
  String.length (get_source_stamp self).1 = 64%nat ∧
  Forall (λ c, In c lower_hex)
         (list_ascii_of_string (get_source_stamp self).1) ∧
  String.length (get_disambiguator self).1 = 10%nat.
Proof.
  split; [reflexivity|].
  apply (stamp_and_tag_lengths Pickle.dumps Examples.no_globals "mod.py").
  vm_compute. reflexivity.
Defined.

(** C6: [get_disambiguator()] returns the first 10 characters of what
    [get_source_stamp()] returns; the tag is a function of the stored
    fingerprint alone; both accessors leave the locator as it was, so
    calling them again returns the same strings. *)
Theorem disambiguator_is_stamp_prefix
    (dumps : pyval → result bytes) py_func py_file self :
  __init__ dumps py_func py_file = Return self →
  let stamp := (get_source_stamp self).1 in
  let tag := (get_disambiguator self).1 in
  tag = slice_to 10 stamp ∧
  String.length tag = 10%nat ∧
  (∃ rest, stamp = (tag +:+ rest)%string) ∧
  (∀ other, _func_hash other = _func_hash self →
            (get_disambiguator other).1 = tag) ∧
  (get_source_stamp self).2 = self ∧
  (get_disambiguator self).2 = self ∧
  get_source_stamp (get_source_stamp self).2 = get_source_stamp self ∧
  get_disambiguator (get_disambiguator self).2 = get_disambiguator self.
Proof.
  intros Hinit stamp tag. subst stamp tag.
  pose proof (init_hash_length _ _ _ _ Hinit) as Hlen.
  cbn. repeat split; try done.
  - by rewrite slice_to_length, Hlen.
  - apply slice_to_prefix.
  - by intros other ->.
Qed.

Lemma disambiguator_is_stamp_prefix_witness :
  let self :=
    Locator "mod.py" (Examples.uses_g {[ "g" := PyInt 5 ]})
      "2c3349a66359fb476b45f209bd73a13cc76fdaa5c0021324625963843d3578de" in
  (get_disambiguator self).1 = "2c3349a663"%string ∧
  (get_disambiguator self).1 = slice_to 10 (get_source_stamp self).1 ∧
  (get_disambiguator self).2 = self.
Proof.
  split; [reflexivity|].
  pose proof (disambiguator_is_stamp_prefix Pickle.dumps
                (Examples.uses_g {[ "g" := PyInt 5 ]}) "mod.py"
                (Locator "mod.py" (Examples.uses_g {[ "g" := PyInt 5 ]})
                   "2c3349a66359fb476b45f209bd73a13cc76fdaa5c0021324625963843d3578de"))
    as H.
  cbv zeta in H.
  destruct H as (Htag & _ & _ & _ & _ & Hself & _).
  { vm_compute. reflexivity. }
  split; [exact Htag | exact Hself].
Defined.

(** C8: [PreciseCacheImpl._locator_classes] starts with
    [_PreciseCacheLocator] and continues with the entries of
    [CompileResultCacheImpl._locator_classes], each one place later and
    in the order they had. *)
Theorem precise_locator_is_tried_first (base : list locator_class) :
  let classes := PreciseCacheImpl_locator_classes base in
  head classes = Some PreciseCacheLocator_class ∧
  tail classes = base ∧
  (∀ i : nat, classes !! S i = base !! i) ∧
  (∀ cls, cls ∈ base → cls ∈ classes).
Proof.
  cbn. repeat split; try done.
  intros cls Hin. by apply list_elem_of_further.
Qed.

(** ** What the fingerprint depends on *)




(** C9: the fingerprint does not read [co_consts]: replacing the
    constant pool of a function, with [co_code], [co_names] and the
    globals kept, gives the same fingerprint, also when the bytes of
    [co_code] are then held in another object. *)
Theorem constants_do_not_matter
    (dumps : pyval → result bytes) (code : code)
    (glbs : gmap string pyval) (id' : oid) (consts' : list constant)
    (py_file : string) :
  stamp_of (__init__ dumps (Function code glbs) py_file)
  = stamp_of (__init__ dumps
                (Function (Code (co_code code) id' (co_names code) consts')
                          glbs)
                py_file).
Proof.
  rewrite !stamp_of_init.
  by rewrite (func_bytes_ext dumps (Function code glbs)
                (Function (Code (co_code code) id' (co_names code) consts')
                          glbs)).
Qed.

(** [def f(): return 1] and [def g(): return 2] share their bytecode and
    their stamp. *)
Example return_1_and_return_2_share_a_stamp :
  let f := Function (Code Examples.const_code (Given 1) [] [KNone; KInt 1]) ∅ in
  let g := Function (Code Examples.const_code (Given 2) [] [KNone; KInt 2]) ∅ in
  co_consts (__code__ f) ≠ co_consts (__code__ g) ∧
  stamp_of (__init__ Pickle.dumps f "mod.py")
  = Return "97fbf9bcd66569ab93617117a9a52bcafc8542494e647ec2e80043b5d9e0c5c9"%string ∧
  stamp_of (__init__ Pickle.dumps g "mod.py")
  = Return "97fbf9bcd66569ab93617117a9a52bcafc8542494e647ec2e80043b5d9e0c5c9"%string.
Proof. split; [discriminate|]. split; vm_compute; reflexivity. Qed.

(** ** Globals that do not serialize *)

(** C3, at an input where the code departs from it.  The function names
    two globals: [g], a dict nested as deep as [dumps] accepts, and
    [bad_obj], an instance whose [__getstate__] raises [RuntimeError].
    [dumps(g)] returns, so [g] is entered in the mapping; the failure of
    [dumps(bad_obj)] is caught and [bad_obj] left out; then
    [dumps(used_globals)], one dict deeper than [g] and outside the
    [try], meets the recursion limit and raises [PicklingError], and so
    does [__init__].  With [bad_obj] deleted from the globals it raises
    the same. *)
Theorem deep_global_fails_the_final_dumps :
  let glbs : gmap string pyval :=
    {[ "g" := Examples.deep; "bad_obj" := Examples.Bad ]} in
  let py_func := Examples.uses_g_bad glbs in
  (∃ pickled, Pickle.dumps Examples.deep = Return pickled) ∧
  Pickle.dumps Examples.Bad = Raise (Exception "RuntimeError") ∧
  collect_used_globals Pickle.dumps py_func
  = Return [("g"%string, Examples.deep)] ∧
  Pickle.dumps (PyDict used_globals_id [("g"%string, Examples.deep)])
  = Raise (Exception "PicklingError") ∧
  __init__ Pickle.dumps py_func "mod.py"
  = Raise (Exception "PicklingError") ∧
  __init__ Pickle.dumps (Examples.uses_g_bad (delete "bad_obj" glbs)) "mod.py"
  = Raise (Exception "PicklingError").
Proof.
  cbv zeta.
  split; [eexists; vm_compute; reflexivity|].
  split; [vm_compute; reflexivity|].
  split; [vm_compute; reflexivity|].
  split; [vm_compute; reflexivity|].
  split; vm_compute; reflexivity.
Qed.




(** [test_precise_cache_skips_unpicklable_global]: the locator is built
    and its stamp is a string. *)
Example test_precise_cache_skips_unpicklable_global :
  stamp_of (from_function Pickle.dumps Examples.test_func "test_cre_cache.py")
  = Return "afe6f4a53226616721737a6eebdc97ec3c0a1d646856c6c6a0ceb113fab5a7a1"%string.
Proof. vm_compute. reflexivity. Qed.

Example mixed_used_globals :
  collect_used_globals Pickle.dumps Examples.mixed
  = Return [("g", PyInt 5);
            ("helper", PyBytes (Given 61) Examples.const_code)]%string ∧
  stamp_of (__init__ Pickle.dumps Examples.mixed "mod.py")
  = Return "eaf17d8a8727d1956255e3b162d16f064768159770bb6fcb3e9fd8e57489984f"%string.
Proof. split; vm_compute; reflexivity. Qed.

(** ** The order of the mapping *)

(** C5, as it fails.  [return a - b] and [return b - a] have the same
    instruction bytes and, with [a = 1] and [b = 2], mappings with the
    same keys bound to the same values; the mappings are serialized to
    different bytes, and the fingerprints differ.  Two functions that
    call one dispatcher under two names, or two dispatchers of functions
    with the same instruction bytes, have mappings with the same keys in
    the same order, bound to equal [bytes]; in the first mapping the two
    are one object, and the fingerprints differ.  And [return 1] and
    [return 2] written with different instruction bytes have the same
    (empty) mapping and different fingerprints. *)
Lemma pickled_mapping_follows_insertion_order :
  let f1 := Examples.a_minus_b Examples.ab in
  let f2 := Examples.b_minus_a Examples.ab in
  let d := Dispatcher (Given 60) (Examples.inner 61 Examples.const_code) in
  let d' := Dispatcher (Given 63) (Examples.inner 64 Examples.const_code) in
  (∃ m1 m2 p1 p2,
    co_code (__code__ f1) = co_code (__code__ f2) ∧
    collect_used_globals Pickle.dumps f1 = Return m1 ∧
    collect_used_globals Pickle.dumps f2 = Return m2 ∧
    same_mapping m1 m2 ∧
    Pickle.dumps (PyDict used_globals_id m1) = Return p1 ∧
    Pickle.dumps (PyDict used_globals_id m2) = Return p2 ∧
    p1 ≠ p2 ∧
    stamp_of (__init__ Pickle.dumps f1 "mod.py")
    = Return "141a2ea828f1dd7495f9d3d9818ad57f1b14a9c50c765be3e20e2b796ef4eba7"%string ∧
    stamp_of (__init__ Pickle.dumps f2 "mod.py")
    = Return "bea8c0a2dde5551af139ead1052d9dea6b9d66a01da5069a20da8a2cb5a7d2cd"%string) ∧
  collect_used_globals Pickle.dumps (Examples.twice d d)
  = Return [("a", PyBytes (Given 61) Examples.const_code);
            ("b", PyBytes (Given 61) Examples.const_code)]%string ∧
  collect_used_globals Pickle.dumps (Examples.twice d d')
  = Return [("a", PyBytes (Given 61) Examples.const_code);
            ("b", PyBytes (Given 64) Examples.const_code)]%string ∧
  stamp_of (__init__ Pickle.dumps (Examples.twice d d) "mod.py")
  = Return "5bcb81908e05fa4c28696e6e90be062a5b26d41b4af120e9dee39fd49b7aab11"%string ∧
  stamp_of (__init__ Pickle.dumps (Examples.twice d d') "mod.py")
  = Return "cf39269a9234376da4f58d1382d5c9721f7a2d7df89fb76f3e2027f3236ed07f"%string ∧
  collect_used_globals Pickle.dumps Examples.no_globals = Return [] ∧
  collect_used_globals Pickle.dumps
    (Examples.def Examples.other_code [] [KNone; KInt 1] ∅) = Return [] ∧
  stamp_of (__init__ Pickle.dumps Examples.no_globals "mod.py")
  = Return "97fbf9bcd66569ab93617117a9a52bcafc8542494e647ec2e80043b5d9e0c5c9"%string ∧
  stamp_of (__init__ Pickle.dumps
              (Examples.def Examples.other_code [] [KNone; KInt 1] ∅) "mod.py")
  = Return "4826d1b04d84f56886595f63062c8ad9e92f37f08363426e0a676f2ef31a6e70"%string.
Proof.
  cbv zeta. split.
  { exists [("a", PyInt 1); ("b", PyInt 2)]%string,
           [("b", PyInt 2); ("a", PyInt 1)]%string.
    eexists _, _.
    split; [reflexivity|].
    split; [vm_compute; reflexivity|].
    split; [vm_compute; reflexivity|].
    split.
    { intros k. cbn. repeat case_decide; subst; try done. }
    split; [vm_compute; reflexivity|].
    split; [vm_compute; reflexivity|].
    split; [discriminate|].
    split; vm_compute; reflexivity. }
  do 7 (split; [vm_compute; reflexivity|]).
  vm_compute. reflexivity.
Qed.

(** C5, amended: two functions whose final mappings bind the same keys
    to the same objects and hold the keys in the same order have the
    same serialized mapping; and with identical instruction bytes, the
    same hashed bytes and the same fingerprint. *)
Theorem equal_mappings_in_equal_order_serialize_alike
    (dumps : pyval → result bytes) (f1 f2 : function)
    (file1 file2 : string) (m1 m2 : dict) :
  collect_used_globals dumps f1 = Return m1 →
  collect_used_globals dumps f2 = Return m2 →
  same_mapping m1 m2 →
  m1.*1 = m2.*1 →
  dumps (PyDict used_globals_id m1) = dumps (PyDict used_globals_id m2) ∧
  (co_code (__code__ f1) = co_code (__code__ f2) →
   func_bytes dumps f1 = func_bytes dumps f2 ∧
   stamp_of (__init__ dumps f1 file1) = stamp_of (__init__ dumps f2 file2)).
Proof.
  intros H1 H2 Hsame Hkeys.
  assert (m1 = m2) as <-.
  { apply dict_eq_of_keys; try done.
    rewrite (collect_spec dumps f1 m1 H1). apply NoDup_entries_from. }
  split; [done|]. intros Hcode.
  assert (Hbytes : func_bytes dumps f1 = func_bytes dumps f2)
    by (apply func_bytes_of_loop; congruence).
  split; [done|]. by rewrite !stamp_of_init, Hbytes.
Qed.

Lemma equal_mappings_in_equal_order_serialize_alike_witness :
  let f1 := Examples.a_minus_b Examples.ab in
  let f2 := Examples.def Examples.sub_code ["a"; "len"; "b"; "a"] [KNone]
              (<["c" := PyInt 3]> Examples.ab) in
  let m := [("a", PyInt 1); ("b", PyInt 2)]%string in
  Pickle.dumps (PyDict used_globals_id m)
  = Pickle.dumps (PyDict used_globals_id m) ∧
  (co_code (__code__ f1) = co_code (__code__ f2) →
   func_bytes Pickle.dumps f1 = func_bytes Pickle.dumps f2 ∧
   stamp_of (__init__ Pickle.dumps f1 "mod.py")
   = stamp_of (__init__ Pickle.dumps f2 "copy.py")).
Proof.
  cbv zeta.
  apply (equal_mappings_in_equal_order_serialize_alike Pickle.dumps
           (Examples.a_minus_b Examples.ab)
           (Examples.def Examples.sub_code ["a"; "len"; "b"; "a"] [KNone]
              (<["c" := PyInt 3]> Examples.ab))
           "mod.py" "copy.py"
           [("a", PyInt 1); ("b", PyInt 2)]%string
           [("a", PyInt 1); ("b", PyInt 2)]%string).
  - vm_compute. reflexivity.
  - vm_compute. reflexivity.
  - intros k. reflexivity.
  - reflexivity.
Defined.

(** ** Wrapped callables *)

(** C7: a referenced global that is an [_Intrinsic] or a [Dispatcher]
    is entered in the mapping as the instruction bytes of its inner
    callable, the object that [co_code] returns; so when those bytes
    change and the rest of the function stays, the mapping changes, and
    the fingerprint changes with it unless the serializer or SHA-256
    sends the two inputs to one output. *)
Theorem inner_code_change_changes_fingerprint
    (dumps : pyval → result bytes) (code : code) (glbs : gmap string pyval)
    (k py_file : string) (v1 v2 : pyval) (f1 f2 : callable) (c1 c2 : Py.code)
    (self1 self2 : _PreciseCacheLocator) :
  let py1 := Function code (<[k:=v1]> glbs) in
  let py2 := Function code (<[k:=v2]> glbs) in
  k ∈ co_names code →
  inner_callable v1 = Some f1 → code_of f1 = Some c1 →
  inner_callable v2 = Some f2 → code_of f2 = Some c2 →
  co_code c1 ≠ co_code c2 →
  (∀ m1 m2, collect_used_globals dumps py1 = Return m1 →
            collect_used_globals dumps py2 = Return m2 →
            dumps (PyDict used_globals_id m1)
            = dumps (PyDict used_globals_id m2) → m1 = m2) →
  (∀ b1 b2, func_bytes dumps py1 = Return b1 →
            func_bytes dumps py2 = Return b2 →
            Sha256.hexdigest b1 = Sha256.hexdigest b2 → b1 = b2) →
  __init__ dumps py1 py_file = Return self1 →
  __init__ dumps py2 py_file = Return self2 →
  (∃ m1, collect_used_globals dumps py1 = Return m1 ∧
         dict_get k m1 = Some (PyBytes (co_code_id c1) (co_code c1))) ∧
  (∃ m2, collect_used_globals dumps py2 = Return m2 ∧
         dict_get k m2 = Some (PyBytes (co_code_id c2) (co_code c2))) ∧
  (get_source_stamp self1).1 ≠ (get_source_stamp self2).1.
Proof.
  intros py1 py2 Hk Hv1 Hc1 Hv2 Hc2 Hne Hpickle Hsha Hinit1 Hinit2.
  apply init_inv in Hinit1 as (m1 & p1 & Hm1 & Hp1 & Hb1 & ->).
  apply init_inv in Hinit2 as (m2 & p2 & Hm2 & Hp2 & Hb2 & ->).
  assert (Hget1 : dict_get k m1
                  = Some (PyBytes (co_code_id c1) (co_code c1))).
  { rewrite (collect_get dumps py1 m1 k Hm1).
    unfold referenced_contribution. cbn. rewrite decide_True by done.
    rewrite lookup_insert_eq. cbn. unfold contribution. by rewrite Hv1, Hc1. }
  assert (Hget2 : dict_get k m2
                  = Some (PyBytes (co_code_id c2) (co_code c2))).
  { rewrite (collect_get dumps py2 m2 k Hm2).
    unfold referenced_contribution. cbn. rewrite decide_True by done.
    rewrite lookup_insert_eq. cbn. unfold contribution. by rewrite Hv2, Hc2. }
  split; [by exists m1|]. split; [by exists m2|].
  cbn [get_source_stamp fst _func_hash]. intros Hhash.
  apply (Hsha _ _ Hb1 Hb2) in Hhash. cbn in Hhash.
  apply app_inv_head in Hhash. subst p2.
  assert (m1 = m2) as -> by (apply Hpickle; congruence).
  congruence.
Qed.

Lemma inner_code_change_changes_fingerprint_witness :
  let py1 := Examples.calls_helper
               (_Intrinsic (Given 60) (Examples.inner 61 Examples.const_code)) in
  let py2 := Examples.calls_helper
               (Dispatcher (Given 63) (Examples.inner 64 Examples.other_code)) in
  stamp_of (__init__ Pickle.dumps py1 "mod.py")
  = Return "2e477b81ad400180abc61b183007c838b755445d9290e5a62435b3dcab4bca42"%string ∧
  stamp_of (__init__ Pickle.dumps py2 "mod.py")
  = Return "865dc08e7bfb82f9f326219055cfeeffe865da60ead4c002937a4868f745a710"%string ∧
  (get_source_stamp
     (Locator "mod.py"
        (Function (Code Examples.branch_code (Given 1) ["helper"] [KNone])
           (<["helper" := _Intrinsic (Given 60)
                            (Examples.inner 61 Examples.const_code)]> ∅))
        "2e477b81ad400180abc61b183007c838b755445d9290e5a62435b3dcab4bca42")).1
  ≠ (get_source_stamp
       (Locator "mod.py"
          (Function (Code Examples.branch_code (Given 1) ["helper"] [KNone])
             (<["helper" := Dispatcher (Given 63)
                              (Examples.inner 64 Examples.other_code)]> ∅))
          "865dc08e7bfb82f9f326219055cfeeffe865da60ead4c002937a4868f745a710")).1.
Proof.
  cbv zeta.
  split; [vm_compute; reflexivity|].
  split; [vm_compute; reflexivity|].
  apply (inner_code_change_changes_fingerprint Pickle.dumps
           (Code Examples.branch_code (Given 1) ["helper"] [KNone]) ∅
           "helper" "mod.py"
           (_Intrinsic (Given 60) (Examples.inner 61 Examples.const_code))
           (Dispatcher (Given 63) (Examples.inner 64 Examples.other_code))
           (Examples.inner 61 Examples.const_code)
           (Examples.inner 64 Examples.other_code)
           (Code Examples.const_code (Given 61) [] [KNone; KInt 1])
           (Code Examples.other_code (Given 64) [] [KNone; KInt 1])).
  - apply list_elem_of_here.
  - reflexivity.
  - reflexivity.
  - reflexivity.
  - reflexivity.
  - discriminate.
  - intros m1 m2 H1 H2 Hd.
    vm_compute in H1. vm_compute in H2.
    injection H1 as <-. injection H2 as <-.
    vm_compute in Hd. discriminate Hd.
  - intros b1 b2 H1 H2 Hh.
    vm_compute in H1. vm_compute in H2.
    injection H1 as <-. injection H2 as <-.
    vm_compute in Hh. discriminate Hh.
  - vm_compute. reflexivity.
  - vm_compute. reflexivity.
Defined.

(** * Further properties of the locator *)

(** ** The mapping that is serialized *)

(** X1: when the loop ends, [used_globals] has one entry per key; every
    key is a name of [co_names] bound in the globals; the value under it
    is the inner instruction bytes when the global is an [_Intrinsic] or
    a [Dispatcher], and otherwise the global itself, which [dumps]
    accepted. *)
Theorem used_globals_entries
    (dumps : pyval → result bytes) (py_func : function) (used_globals : dict) :
  collect_used_globals dumps py_func = Return used_globals →
  NoDup used_globals.*1 ∧
  (length used_globals ≤ length (co_names (__code__ py_func)))%nat ∧
  ∀ k v, (k, v) ∈ used_globals →
    k ∈ co_names (__code__ py_func) ∧
    ∃ g, __globals__ py_func !! k = Some g ∧
         match inner_callable g with
         | Some f => ∃ c, code_of f = Some c ∧
                          v = PyBytes (co_code_id c) (co_code c)
         | None => v = g ∧ ∃ pickled, dumps g = Return pickled
         end.
Proof.
  intros ->%collect_spec. unfold referenced_mapping.
  split; [apply NoDup_entries_from|].
  split; [apply length_entries_from|].
  intros k v (Hk & _ & Hentry)%elem_of_entries_from. split; [done|].
  destruct (__globals__ py_func !! k) as [g|]; [|done].
  exists g. split; [done|]. cbn in Hentry. unfold contribution in Hentry.
  destruct (inner_callable g) as [f|].
  - destruct (code_of f) as [c|]; [|done].
    exists c. by injection Hentry as <-.
  - destruct (dumps g) as [p|e] eqn:Hd; [|done].
    injection Hentry as <-. split; [done | by exists p].
Qed.

Lemma used_globals_entries_witness :
  let used_globals :=
    [("g", PyInt 5);
     ("helper", PyBytes (Given 61) Examples.const_code)]%string in
  NoDup used_globals.*1 ∧
  (length used_globals ≤ length (co_names (__code__ Examples.mixed)))%nat ∧
  ∀ k v, (k, v) ∈ used_globals →
    k ∈ co_names (__code__ Examples.mixed) ∧
    ∃ g, __globals__ Examples.mixed !! k = Some g ∧
         match inner_callable g with
         | Some f => ∃ c, code_of f = Some c ∧
                          v = PyBytes (co_code_id c) (co_code c)
         | None => v = g ∧ ∃ pickled, Pickle.dumps g = Return pickled
         end.
Proof.
  apply (used_globals_entries Pickle.dumps Examples.mixed).
  vm_compute. reflexivity.
Defined.

(** X10: a function none of whose names is a global is hashed as its
    instruction bytes followed by the serialized empty dict, whatever
    else its globals hold. *)
Theorem no_bound_name_hashes_empty_dict
    (dumps : pyval → result bytes) (py_func : function) (py_file : string) :
  (∀ k, k ∈ co_names (__code__ py_func) → __globals__ py_func !! k = None) →
  collect_used_globals dumps py_func = Return [] ∧
  stamp_of (__init__ dumps py_func py_file)
  = pickled ← dumps (PyDict used_globals_id []);
    Return (Sha256.hexdigest (co_code (__code__ py_func) ++ pickled)).
Proof.
  intros Hunbound.
  assert (Hloop : collect_used_globals dumps py_func = Return []).
  { unfold collect_used_globals. by apply for_co_names_unbound. }
  split; [done|].
  rewrite stamp_of_init. unfold func_bytes. rewrite Hloop. cbn.
  by destruct (dumps (PyDict _ [])).
Qed.

Lemma no_bound_name_hashes_empty_dict_witness :
  collect_used_globals Pickle.dumps
    (Examples.x_shape {[ "y" := Examples.Bad ]}) = Return [] ∧
  stamp_of (__init__ Pickle.dumps
              (Examples.x_shape {[ "y" := Examples.Bad ]}) "mod.py")
  = pickled ← Pickle.dumps (PyDict used_globals_id []);
    Return (Sha256.hexdigest (Examples.attr_code ++ pickled)).
Proof.
  apply (no_bound_name_hashes_empty_dict Pickle.dumps
           (Examples.x_shape {[ "y" := Examples.Bad ]}) "mod.py").
  intros k Hk. cbn in Hk.
  repeat (apply elem_of_cons in Hk as [->|Hk]); [done..|].
  by apply elem_of_nil in Hk.
Defined.

(** ** Names the loop passes over *)

(** X2: a name that [co_names] lists a second time changes nothing: the
    result of construction, stamp or exception, is that of the function
    with the later occurrence taken out. *)
Theorem repeated_name_is_harmless
    (dumps : pyval → result bytes) (co : bytes) (id : oid)
    (names1 names2 : list string)
    (k : string) (consts : list constant) (glbs : gmap string pyval)
    (py_file : string) :
  k ∈ names1 →
  stamp_of (__init__ dumps
              (Function (Code co id (names1 ++ k :: names2) consts) glbs)
              py_file)
  = stamp_of (__init__ dumps
                (Function (Code co id (names1 ++ names2) consts) glbs)
                py_file).
Proof.
  intros Hk. rewrite !stamp_of_init. f_equal.
  apply func_bytes_of_loop; [done|].
  unfold collect_used_globals. cbn. by apply for_co_names_repeated.
Qed.

Lemma repeated_name_is_harmless_witness :
  stamp_of (__init__ Pickle.dumps
              (Function (Code Examples.sub_code (Given 1)
                              (["a"; "b"] ++ "a" :: []) [KNone])
                        Examples.ab) "mod.py")
  = stamp_of (__init__ Pickle.dumps
                (Function (Code Examples.sub_code (Given 1)
                                (["a"; "b"] ++ []) [KNone])
                          Examples.ab) "mod.py").
Proof.
  apply (repeated_name_is_harmless Pickle.dumps Examples.sub_code (Given 1)
           ["a"; "b"] [] "a" [KNone] Examples.ab "mod.py").
  apply list_elem_of_here.
Defined.

(** X3: names of [co_names] that are not bound in the globals (builtins,
    attribute names) do not reach the fingerprint: two functions with the
    same instruction bytes and globals whose [co_names] list the same
    bound names in the same order have the same result. *)
Theorem unbound_names_are_ignored
    (dumps : pyval → result bytes) (co : bytes) (id1 id2 : oid)
    (names1 names2 : list string)
    (consts1 consts2 : list constant) (glbs : gmap string pyval)
    (file1 file2 : string) :
  filter (λ k, is_Some (glbs !! k)) names1
  = filter (λ k, is_Some (glbs !! k)) names2 →
  stamp_of (__init__ dumps (Function (Code co id1 names1 consts1) glbs) file1)
  = stamp_of (__init__ dumps (Function (Code co id2 names2 consts2) glbs) file2).
Proof.
  intros Hbound. rewrite !stamp_of_init. f_equal.
  apply func_bytes_of_loop; [done|].
  unfold collect_used_globals. cbn.
  by rewrite <- (for_co_names_filter_bound dumps glbs names1),
             <- (for_co_names_filter_bound dumps glbs names2), Hbound.
Qed.

Lemma unbound_names_are_ignored_witness :
  stamp_of (__init__ Pickle.dumps
              (Examples.x_shape {[ "x" := PyInt 1 ]}) "mod.py")
  = stamp_of (__init__ Pickle.dumps
                (Examples.x_size {[ "x" := PyInt 1 ]}) "mod.py").
Proof.
  apply (unbound_names_are_ignored Pickle.dumps Examples.attr_code
           (Given 1) (Given 1)
           ["x"; "shape"] ["x"; "size"] [KNone] [KNone]
           {[ "x" := PyInt 1 ]} "mod.py" "mod.py").
  vm_compute. reflexivity.
Defined.

(** ** What a global is reduced to *)





(** ** How construction ends *)



(** ** What changes the fingerprint *)

(** X7: rebinding a referenced plain global from one value that [dumps]
    accepts to a different one changes the entry of its name in the
    mapping, and the stamp with it unless the serializer or SHA-256 sends
    the two inputs to one output. *)
Theorem plain_global_change_changes_fingerprint
    (dumps : pyval → result bytes) (code : code) (glbs : gmap string pyval)
    (k py_file : string) (v1 v2 : pyval) (s1 s2 : bytes)
    (self1 self2 : _PreciseCacheLocator) :
  let py1 := Function code (<[k:=v1]> glbs) in
  let py2 := Function code (<[k:=v2]> glbs) in
  k ∈ co_names code →
  plain v1 → dumps v1 = Return s1 →
  plain v2 → dumps v2 = Return s2 →
  v1 ≠ v2 →
  (∀ m1 m2, collect_used_globals dumps py1 = Return m1 →
            collect_used_globals dumps py2 = Return m2 →
            dumps (PyDict used_globals_id m1)
            = dumps (PyDict used_globals_id m2) → m1 = m2) →
  (∀ b1 b2, func_bytes dumps py1 = Return b1 →
            func_bytes dumps py2 = Return b2 →
            Sha256.hexdigest b1 = Sha256.hexdigest b2 → b1 = b2) →
  __init__ dumps py1 py_file = Return self1 →
  __init__ dumps py2 py_file = Return self2 →
  (∃ m1, collect_used_globals dumps py1 = Return m1 ∧
         dict_get k m1 = Some v1) ∧
  (∃ m2, collect_used_globals dumps py2 = Return m2 ∧
         dict_get k m2 = Some v2) ∧
  (get_source_stamp self1).1 ≠ (get_source_stamp self2).1.
Proof.
  intros py1 py2 Hk Hp1 Hs1 Hp2 Hs2 Hne Hpickle Hsha Hinit1 Hinit2.
  apply init_inv in Hinit1 as (m1 & p1 & Hm1 & Hd1 & Hb1 & ->).
  apply init_inv in Hinit2 as (m2 & p2 & Hm2 & Hd2 & Hb2 & ->).
  assert (Hget1 : dict_get k m1 = Some v1).
  { rewrite (collect_get dumps py1 m1 k Hm1).
    unfold referenced_contribution. cbn. rewrite decide_True by done.
    rewrite lookup_insert_eq. cbn. unfold contribution.
    unfold plain in Hp1. by rewrite Hp1, Hs1. }
  assert (Hget2 : dict_get k m2 = Some v2).
  { rewrite (collect_get dumps py2 m2 k Hm2).
    unfold referenced_contribution. cbn. rewrite decide_True by done.
    rewrite lookup_insert_eq. cbn. unfold contribution.
    unfold plain in Hp2. by rewrite Hp2, Hs2. }
  split; [by exists m1|]. split; [by exists m2|].
  cbn [get_source_stamp fst _func_hash]. intros Hhash.
  apply (Hsha _ _ Hb1 Hb2) in Hhash. cbn in Hhash.
  apply app_inv_head in Hhash. subst p2.
  assert (m1 = m2) as -> by (apply Hpickle; congruence).
  congruence.
Qed.

Lemma plain_global_change_changes_fingerprint_witness :
  (get_source_stamp
     (Locator "mod.py"
        (Function (Code Examples.branch_code (Given 1) ["g"] [KNone; KInt 1])
                  (<["g" := PyInt 5]> ∅))
        "2c3349a66359fb476b45f209bd73a13cc76fdaa5c0021324625963843d3578de")).1
  ≠ (get_source_stamp
       (Locator "mod.py"
          (Function (Code Examples.branch_code (Given 1) ["g"] [KNone; KInt 1])
                    (<["g" := PyInt 6]> ∅))
          "165691b0216fe1ac7a56243cfe6ddd20475255ad94a5769751ba0f69c660af64")).1.
Proof.
  apply (plain_global_change_changes_fingerprint Pickle.dumps
           (Code Examples.branch_code (Given 1) ["g"] [KNone; KInt 1]) ∅
           "g" "mod.py" (PyInt 5) (PyInt 6)
           [x80; x04; x4b; x05; x2e] [x80; x04; x4b; x06; x2e]).
  - apply list_elem_of_here.
  - reflexivity.
  - vm_compute. reflexivity.
  - reflexivity.
  - vm_compute. reflexivity.
  - discriminate.
  - intros m1 m2 H1 H2 Hd.
    vm_compute in H1. vm_compute in H2.
    injection H1 as <-. injection H2 as <-.
    vm_compute in Hd. discriminate Hd.
  - intros b1 b2 H1 H2 Hh.
    vm_compute in H1. vm_compute in H2.
    injection H1 as <-. injection H2 as <-.
    vm_compute in Hh. discriminate Hh.
  - vm_compute. reflexivity.
  - vm_compute. reflexivity.
Defined.

(** X8: with the names and the globals fixed, the bytes that are hashed
    tell the instruction bytes apart: two functions that differ in
    [co_code] only are hashed from different byte strings. *)
Theorem hashed_bytes_tell_co_code_apart
    (dumps : pyval → result bytes) (co1 co2 : bytes) (id1 id2 : oid)
    (names : list string)
    (consts1 consts2 : list constant) (glbs : gmap string pyval)
    (b1 b2 : bytes) :
  co1 ≠ co2 →
  func_bytes dumps (Function (Code co1 id1 names consts1) glbs) = Return b1 →
  func_bytes dumps (Function (Code co2 id2 names consts2) glbs) = Return b2 →
  b1 ≠ b2.
Proof.
  unfold func_bytes, collect_used_globals. cbn. intros Hne.
  destruct (for_co_names dumps glbs names []) as [used|e]; cbn; [|done].
  destruct (dumps (PyDict _ used)) as [pickled|e]; [|done].
  intros [= <-] [= <-] Heq. by apply app_inv_tail in Heq.
Qed.

Lemma hashed_bytes_tell_co_code_apart_witness :
  Examples.const_code ++ [x80; x04; x7d; x94; x2e]
  ≠ Examples.other_code ++ [x80; x04; x7d; x94; x2e].
Proof.
  apply (hashed_bytes_tell_co_code_apart Pickle.dumps
           Examples.const_code Examples.other_code (Given 1) (Given 2)
           [] [KNone] [KNone] ∅).
  - discriminate.
  - vm_compute. reflexivity.
  - vm_compute. reflexivity.
Defined.

(** X9: where the instruction bytes end and the serialized mapping begins
    is not hashed: when the mapping of one function serializes to [p ++ q],
    a function whose instruction bytes are those of the first followed by
    [p], and whose mapping serializes to [q], has the same stamp. *)
Theorem code_and_mapping_boundary_is_not_hashed
    (dumps : pyval → result bytes) (f1 f2 : function) (m1 m2 : dict)
    (p q : bytes) (file1 file2 : string) :
  collect_used_globals dumps f1 = Return m1 →
  collect_used_globals dumps f2 = Return m2 →
  dumps (PyDict used_globals_id m1) = Return (p ++ q) →
  dumps (PyDict used_globals_id m2) = Return q →
  co_code (__code__ f2) = co_code (__code__ f1) ++ p →
  stamp_of (__init__ dumps f1 file1) = stamp_of (__init__ dumps f2 file2).
Proof.
  intros H1 H2 Hd1 Hd2 Hco. rewrite !stamp_of_init. unfold func_bytes.
  rewrite H1, H2. cbn. rewrite Hd1, Hd2, Hco. cbn.
  by rewrite <- app_assoc.
Qed.

Lemma code_and_mapping_boundary_is_not_hashed_witness :
  co_code (__code__ (Examples.holds_pickle Examples.const_code))
  ≠ co_code (__code__ (Examples.spliced Examples.const_code)) ∧
  stamp_of (__init__ Pickle.dumps
              (Examples.holds_pickle Examples.const_code) "mod.py")
  = stamp_of (__init__ Pickle.dumps
                (Examples.spliced Examples.const_code) "mod.py").
Proof.
  split; [discriminate|].
  apply (code_and_mapping_boundary_is_not_hashed Pickle.dumps
           (Examples.holds_pickle Examples.const_code)
           (Examples.spliced Examples.const_code)
           [("g", PyBytes (Given 70) Examples.pickle_head)]%string
           [("a", PyBytes (Given 71) [x78])]%string
           Examples.splice
           (Examples.pickle_head ++ [x94; x73; x2e])).
  - vm_compute. reflexivity.
  - vm_compute. reflexivity.
  - vm_compute. reflexivity.
  - vm_compute. reflexivity.
  - reflexivity.
Defined.

(** The stamp the two functions share is the one CPython computes, with
    [LOAD_GLOBAL 0; RETURN_VALUE] for the instruction bytes of the first. *)
Example spliced_functions_share_a_stamp :
  stamp_of (__init__ Pickle.dumps
              (Examples.holds_pickle [x74; x00; x53; x00]) "mod.py")
  = Return "9385b6b9eea0e2579d5fc392e0c1295bd0e1f00f926c04a1bfdd6a54d210e2f5"%string ∧
  stamp_of (__init__ Pickle.dumps
              (Examples.spliced [x74; x00; x53; x00]) "mod.py")
  = Return "9385b6b9eea0e2579d5fc392e0c1295bd0e1f00f926c04a1bfdd6a54d210e2f5"%string.
Proof. split; vm_compute; reflexivity. Qed.

(** ** The order of [co_names] *)

(** X11: two functions with the same globals whose [co_names] hold the
    same names, in any order and any number of times, both end the loop
    or both raise; when they end it, the two mappings bind the same keys
    to the same values, and they are the same sequence of items exactly
    when their keys come in the same order. *)
Theorem name_order_reaches_only_the_item_order
    (dumps : pyval → result bytes) (co1 co2 : bytes) (id1 id2 : oid)
    (names1 names2 : list string) (consts1 consts2 : list constant)
    (glbs : gmap string pyval) :
  let f1 := Function (Code co1 id1 names1 consts1) glbs in
  let f2 := Function (Code co2 id2 names2 consts2) glbs in
  (∀ k, k ∈ names1 ↔ k ∈ names2) →
  ((∃ m1, collect_used_globals dumps f1 = Return m1)
   ↔ (∃ m2, collect_used_globals dumps f2 = Return m2)) ∧
  ∀ m1 m2, collect_used_globals dumps f1 = Return m1 →
           collect_used_globals dumps f2 = Return m2 →
           same_mapping m1 m2 ∧ (m1 = m2 ↔ m1.*1 = m2.*1).
Proof.
  intros f1 f2 Hnames. split.
  - unfold collect_used_globals. cbn. rewrite !for_co_names_returns.
    split; intros Hall k Hk; by apply Hall, Hnames.
  - intros m1 m2 Hm1 Hm2.
    assert (Hsame : same_mapping m1 m2).
    { intros k. rewrite (collect_get dumps f1 m1 k Hm1),
                        (collect_get dumps f2 m2 k Hm2).
      unfold referenced_contribution. cbn.
      destruct (decide (k ∈ names1)) as [Hin|Hnin].
      - rewrite decide_True; [done | by apply Hnames].
      - rewrite decide_False; [done|]. intros ?. by apply Hnin, Hnames. }
    split; [done|]. split; [by intros ->|].
    intros Hkeys. apply dict_eq_of_keys; try done.
    rewrite (collect_spec dumps f1 m1 Hm1). apply NoDup_entries_from.
Qed.

Lemma name_order_reaches_only_the_item_order_witness :
  let m1 := [("a", PyInt 1); ("b", PyInt 2)]%string in
  let m2 := [("b", PyInt 2); ("a", PyInt 1)]%string in
  same_mapping m1 m2 ∧ (m1 = m2 ↔ m1.*1 = m2.*1).
Proof.
  cbv zeta.
  apply (name_order_reaches_only_the_item_order Pickle.dumps
           Examples.sub_code Examples.sub_code (Given 1) (Given 1)
           ["a"; "b"] ["b"; "a"]
           [KNone] [KNone] Examples.ab).
  - intros k. rewrite !elem_of_cons, !elem_of_nil. tauto.
  - vm_compute. reflexivity.
  - vm_compute. reflexivity.
Defined.
